(** * tools/stats/upload_test_stats.py: test-report normalisation and retrieval

    A shallow embedding of [tools/stats/upload_test_stats.py] and the
    properties of its XML-to-record normalisation ([process_xml_element],
    [parse_xml_report]) and of its artifact retrieval
    ([download_and_extract_s3_reports], [download_and_extract_artifact],
    [unzip], [get_artifact_urls], [download_and_extract_gha_artifacts]).

    Python values are modelled as follows.
    - [str]: [string]; every [ascii] stands for the code point of the same
      number, so the strings covered are those over U+0000..U+00FF.
    - [int]: [Z].
    - [float]: [spec_float] at binary64 ([prec = 53], [emax = 1024]).
    - [dict]: an association list in insertion order with unique keys;
      [d[k] = v] replaces the value in place or appends a new entry.
    - exceptions: the [Raise] branch of [result]. *)

From Stdlib Require Import List String Ascii ZArith NArith Bool Lia.
From Stdlib Require Import Numbers.DecimalString Numbers.DecimalPos Numbers.DecimalZ.
From Stdlib Require Import Floats.SpecFloat.
Import ListNotations.

Set Warnings "-register-all".
Local Open Scope string_scope.
Local Open Scope list_scope.
Local Open Scope Z_scope.

(** ** Python strings *)

Module PyStr.

Definition chars (s : string) : list ascii := list_ascii_of_string s.
Definition str (cs : list ascii) : string := string_of_list_ascii cs.

Definition code (c : ascii) : N := N_of_ascii c.

(** [str.isspace] on one character (Unicode White_Space or bidirectional
    type WS, B or S), restricted to U+0000..U+00FF. *)
Definition py_isspace (c : ascii) : bool :=
  let n := code c in
  ((9 <=? n) && (n <=? 13) || (28 <=? n) && (n <=? 32)
   || (n =? 133) || (n =? 160))%N.

Fixpoint lstrip_by (sp : ascii -> bool) (cs : list ascii) : list ascii :=
  match cs with
  | [] => []
  | c :: r => if sp c then lstrip_by sp r else cs
  end.

Definition strip_by (sp : ascii -> bool) (cs : list ascii) : list ascii :=
  rev (lstrip_by sp (rev (lstrip_by sp cs))).

(** [s.strip()] *)
Definition strip (s : string) : string := str (strip_by py_isspace (chars s)).

(** [bool(s)] *)
Definition truthy (s : string) : bool :=
  match s with EmptyString => false | String _ _ => true end.

(** [s.startswith(p)] *)
Definition startswith (p s : string) : bool := String.prefix p s.

(** [s[n:]] for [0 <= n] *)
Fixpoint drop (n : nat) (s : string) : string :=
  match n, s with
  | O, _ => s
  | S _, EmptyString => EmptyString
  | S n', String _ r => drop n' r
  end.

(** [s.split(sep)] for a separator of one character *)
Fixpoint split (sep : ascii) (s : string) : list string :=
  match s with
  | EmptyString => [EmptyString]
  | String c r =>
      if Ascii.eqb c sep then EmptyString :: split sep r
      else match split sep r with
           | w :: ws => String c w :: ws
           | [] => [String c EmptyString]
           end
  end.

(** The split of [s] at the last [sep], when there is one. *)
Fixpoint rsplit1 (sep : ascii) (s : string) : option (string * string) :=
  match s with
  | EmptyString => None
  | String c r =>
      match rsplit1 sep r with
      | Some (b, a) => Some (String c b, a)
      | None => if Ascii.eqb c sep then Some (EmptyString, r) else None
      end
  end.

(** [s.rpartition(sep)] for a separator of one character *)
Definition rpartition (sep : ascii) (s : string) : string * string * string :=
  match rsplit1 sep s with
  | Some (b, a) => (b, String sep EmptyString, a)
  | None => (EmptyString, EmptyString, s)
  end.

(** [str(n)] and [f"{n}"] for an [int] *)
Definition of_int (n : Z) : string := NilEmpty.string_of_int (Z.to_int n).

End PyStr.

(** ** The builtins [int(s)] and [float(s)] on a [str] *)

Module PyNum.
Import PyStr.

(** C's [Py_ISSPACE]: the whitespace both parsers skip. *)
Definition Py_ISSPACE (c : ascii) : bool :=
  let n := code c in ((9 <=? n) && (n <=? 13) || (n =? 32))%N.

Definition is_digit (c : ascii) : bool :=
  let n := code c in ((48 <=? n) && (n <=? 57))%N.

Definition digit_val (c : ascii) : Z := Z.of_N (code c) - 48.

(** Both parsers first rewrite a non-ASCII string: a non-ASCII space becomes
    [" "], and the text is cut at the first other character from U+007F on,
    which is replaced by ["?"] (no decimal digit lies in U+007F..U+00FF). *)
Fixpoint to_ascii (cs : list ascii) : list ascii :=
  match cs with
  | [] => []
  | c :: r =>
      if (code c <? 127)%N then c :: to_ascii r
      else if py_isspace c then " "%char :: to_ascii r
      else ["?"%char]
  end.

Definition transform (s : string) : list ascii :=
  let cs := chars s in
  if forallb (fun c => (code c <? 128)%N) cs then cs else to_ascii cs.

Definition take_sign (cs : list ascii) : bool * list ascii :=
  match cs with
  | "+"%char :: r => (false, r)
  | "-"%char :: r => (true, r)
  | _ => (false, cs)
  end.

(** The rest of a [digitpart ::= digit (["_"] digit)*] after its first
    digit: the value read so far, the number of digits, and what follows. *)
Fixpoint digits_tail (acc : Z) (n : nat) (cs : list ascii)
  : Z * nat * list ascii :=
  match cs with
  | c :: r =>
      if is_digit c then digits_tail (10 * acc + digit_val c) (S n) r
      else if Ascii.eqb c "_" then
        match r with
        | c2 :: r2 =>
            if is_digit c2
            then digits_tail (10 * acc + digit_val c2) (S n) r2
            else (acc, n, cs)
        | [] => (acc, n, cs)
        end
      else (acc, n, cs)
  | [] => (acc, n, [])
  end.

Definition digitpart (cs : list ascii) : option (Z * nat * list ascii) :=
  match cs with
  | c :: r => if is_digit c then Some (digits_tail (digit_val c) 1 r) else None
  | [] => None
  end.

(** [integer ::= [sign] digitpart], nothing after it *)
Definition int_body (cs : list ascii) : option Z :=
  let (neg, cs) := take_sign cs in
  match digitpart cs with
  | Some (v, _, []) => Some (if neg then - v else v)
  | _ => None
  end.

(** [int(s)]: [None] stands for [ValueError]. The limit that recent
    interpreters put on the number of digits is left out. *)
Definition py_int (s : string) : option Z :=
  int_body (strip_by Py_ISSPACE (transform s)).

(** *** binary64 *)

Definition prec : Z := 53.
Definition emax : Z := 1024.

(** The binary64 number nearest to [m * 10 ^ e] (ties to even; an
    overflow gives an infinity), with sign [neg]. *)
Definition float_of_decimal (neg : bool) (m e : Z) : spec_float :=
  match m with
  | Zpos p =>
      if 0 <=? e
      then binary_round prec emax neg (Z.to_pos (Zpos p * 10 ^ e)) 0
      else SFdiv prec emax (S754_finite neg p 0)
                           (S754_finite false (Z.to_pos (10 ^ (- e))) 0)
  | _ => S754_zero neg
  end.

Definition lower (c : ascii) : ascii :=
  let n := code c in
  if ((65 <=? n) && (n <=? 90))%N then ascii_of_N (n + 32) else c.

(** [infinity ::= "Infinity" | "inf"] and [nan ::= "nan"], in any case *)
Definition float_keyword (neg : bool) (cs : list ascii) : option spec_float :=
  let w := str (map lower cs) in
  if String.eqb w "inf" || String.eqb w "infinity" then Some (S754_infinity neg)
  else if String.eqb w "nan" then Some S754_nan
  else None.

(** [exponent ::= ("e" | "E") [sign] digitpart], nothing after it; an
    empty rest is the exponent 0. *)
Definition exponent (cs : list ascii) : option Z :=
  match cs with
  | [] => Some 0
  | c :: r =>
      if Ascii.eqb c "e" || Ascii.eqb c "E" then
        let (eneg, r) := take_sign r in
        match digitpart r with
        | Some (v, _, []) => Some (if eneg then - v else v)
        | _ => None
        end
      else None
  end.

(** The fraction after the point: its digits (optional when [opt]) and the
    exponent. Gives the mantissa and the decimal exponent. *)
Definition fraction (opt : bool) (ip : Z) (cs : list ascii) : option (Z * Z) :=
  match digitpart cs with
  | Some (fv, nf, r) =>
      match exponent r with
      | Some ev => Some (ip * 10 ^ Z.of_nat nf + fv, ev - Z.of_nat nf)
      | None => None
      end
  | None =>
      if opt then
        match exponent cs with
        | Some ev => Some (ip, ev)
        | None => None
        end
      else None
  end.

(** [floatvalue ::= [sign] (floatnumber | infinity | nan)] with
    [number ::= [digitpart] "." digitpart | digitpart ["."]] and
    [floatnumber ::= number [exponent]] *)
Definition float_body (cs : list ascii) : option spec_float :=
  let (neg, cs) := take_sign cs in
  match digitpart cs with
  | Some (iv, _, r) =>
      let me :=
        match r with
        | "."%char :: r' => fraction true iv r'
        | _ => match exponent r with
               | Some ev => Some (iv, ev)
               | None => None
               end
        end in
      match me with
      | Some (m, e) => Some (float_of_decimal neg m e)
      | None => None
      end
  | None =>
      match cs with
      | "."%char :: r' =>
          match fraction false 0 r' with
          | Some (m, e) => Some (float_of_decimal neg m e)
          | None => None
          end
      | _ => float_keyword neg cs
      end
  end.

(** [float(s)]: [None] stands for [ValueError]. *)
Definition py_float (s : string) : option spec_float :=
  float_body (strip_by Py_ISSPACE (transform s)).

End PyNum.

Import PyStr PyNum.

(** ** Dictionaries *)

Section Dict.
Context {V : Type}.

Definition dict : Type := list (string * V).

Definition keys (d : dict) : list string := map fst d.

(** [d.get(k)] *)
Fixpoint dict_get (d : dict) (k : string) : option V :=
  match d with
  | [] => None
  | (k', v) :: r => if String.eqb k' k then Some v else dict_get r k
  end.

(** [d[k] = v] *)
Fixpoint dict_set (d : dict) (k : string) (v : V) : dict :=
  match d with
  | [] => [(k, v)]
  | (k', v') :: r =>
      if String.eqb k' k then (k', v) :: r else (k', v') :: dict_set r k v
  end.

(** [d.update(other)] *)
Definition dict_update (d other : dict) : dict :=
  fold_left (fun d kv => dict_set d (fst kv) (snd kv)) other d.

End Dict.
Arguments dict : clear implicits.

(** ** Records and XML elements *)

(** What a record holds ([Dict[str, Any]] in the source). *)
Inductive value : Type :=
| VStr (s : string)
| VInt (n : Z)
| VFloat (f : spec_float)
| VDict (d : list (string * value)).

Definition record : Type := dict value.

(** [xml.etree.ElementTree.Element]: the children are the sub-elements, in
    document order. *)
Inductive Element : Type :=
  mkElement { tag : string;
              attrib : dict string;
              text : option string;
              tail : option string;
              children : list Element }.

(** [if o and o.strip(): ret[k] = o], for [o] a [str] or [None] *)
Definition store_text (ret : record) (k : string) (o : option string) : record :=
  match o with
  | Some t => if truthy t && truthy (strip t) then dict_set ret k (VStr t) else ret
  | None => ret
  end.

(** One round of the loop over [ret.items()]: two [try] blocks in a row. *)
Definition coerce (ret : record) (kv : string * string) : record :=
  let (k, v) := kv in
  let ret := match py_int v with
             | Some n => dict_set ret k (VInt n)
             | None => ret
             end in
  match py_float v with
  | Some f => dict_set ret k (VFloat f)
  | None => ret
  end.

(** [ret] when the loop over the children starts. *)
Definition own_fields (element : Element) : record :=
  let items : dict string := dict_update [] (attrib element) in
  let ret : record := map (fun kv => (fst kv, VStr (snd kv))) items in
  let ret := fold_left coerce items ret in
  let ret := store_text ret "text" (text element) in
  store_text ret "tail" (tail element).

Fixpoint process_xml_element (element : Element) : record :=
  fold_left
    (fun ret child => dict_set ret (tag child) (VDict (process_xml_element child)))
    (children element)
    (own_fields element).

(** [Element.iter(tag)]: the element and its descendants in document order,
    those with the given tag; ["*"] selects all. *)
Fixpoint iter (t : string) (e : Element) : list Element :=
  (if String.eqb t "*" || String.eqb (tag e) t then [e] else [])
  ++ flat_map (iter t) (children e).

Inductive exn : Type :=
| ValueError
| IndexError
| KeyError
| AssertionError
| RuntimeError (msg : string)
| BadZipFile
| ParseError
| ClientError
| ConnectionError.

Inductive result (A : Type) : Type :=
| Ok (a : A)
| Raise (e : exn).
Arguments Ok {A} a.
Arguments Raise {A} e.

(** A [Path] is given by its [parts]. *)
Definition Path : Type := list string.

(** The job id of note [Job id in artifacts]. *)
Definition job_id_of (report : Path) : result Z :=
  match report with
  | [] => Raise IndexError
  | seg :: _ =>
      match py_int (snd (rpartition "_" seg)) with
      | Some n => Ok n
      | None => Raise ValueError
      end
  end.

(** [document] is what [ET.parse(report)] gives. *)
Definition parse_xml_report (t : string) (report : Path)
    (document : result Element) (workflow_id workflow_run_attempt : Z)
  : result (list record) :=
  match job_id_of report with
  | Raise e => Raise e
  | Ok job_id =>
      match document with
      | Raise e => Raise e
      | Ok root =>
          Ok (map (fun test_case =>
                     let case := process_xml_element test_case in
                     let case := dict_set case "workflow_id" (VInt workflow_id) in
                     let case := dict_set case "workflow_run_attempt"
                                          (VInt workflow_run_attempt) in
                     dict_set case "job_id" (VInt job_id))
                  (iter t root))
      end
  end.

(** ** Artifact retrieval *)

(** What a downloaded file holds: a zip archive with its members, or
    anything else. *)
Inductive blob : Type :=
| Archive (members : dict string)
| Raw (content : string).

(** An object of the bucket; [body] is [None] when [obj.get()] fails. *)
Record S3Object : Type := mkS3Object { key : string; body : option blob }.

Inductive event : Type :=
| Printed (msg : string)
| Written (p : string) (b : blob)
| Extracted (p dir : string).

(** The process environment, the two services, the working directory and
    what the run did so far. [http url headers] is [None] when the request
    fails. Writing a file and creating a directory always succeed. *)
Record world : Type := mkWorld {
  environ : dict string;
  http : string -> dict string -> option blob;
  bucket : list S3Object;
  files : dict blob;
  dirs : dict (dict string);
  log : list event }.

Definition M (A : Type) : Type := world -> result A * world.

Definition ret {A} (a : A) : M A := fun w => (Ok a, w).
Definition raise {A} (e : exn) : M A := fun w => (Raise e, w).
Definition bind {A B} (m : M A) (k : A -> M B) : M B :=
  fun w => match m w with
           | (Ok a, w') => k a w'
           | (Raise e, w') => (Raise e, w')
           end.

Notation "x <- m ;; k" := (bind m (fun x => k))
  (at level 61, m at next level, right associativity).
Notation "m ;; k" := (bind m (fun _ => k))
  (at level 61, right associativity).

(** [for x in l: s = body(s, x)] *)
Fixpoint for_in {A S} (l : list A) (s : S) (body : S -> A -> M S) : M S :=
  match l with
  | [] => ret s
  | x :: r => s' <- body s x ;; for_in r s' body
  end.

Definition add_log (evs : list event) (w : world) : world :=
  mkWorld (environ w) (http w) (bucket w) (files w) (dirs w) (log w ++ evs).

Definition emit (ev : event) : M unit := fun w => (Ok tt, add_log [ev] w).

Definition print (msg : string) : M unit := emit (Printed msg).

(** [with open(p, "wb") as f: f.write(b)] *)
Definition write_file (p : string) (b : blob) : M unit :=
  fun w => (Ok tt, mkWorld (environ w) (http w) (bucket w)
                           (dict_set (files w) p b) (dirs w)
                           (log w ++ [Written p b])).

(** [Path(p).stem] for a path of one part *)
Definition stem (name : string) : string :=
  match rsplit1 "." name with
  | Some (b, a) => if truthy b && truthy a then b else name
  | None => name
  end.

Definition unzip (p : string) : M unit :=
  fun w =>
    match dict_get (files w) p with
    | None => (Raise AssertionError, w)
    | Some b =>
        let unzipped_dir := ("unzipped-" ++ stem p)%string in
        match b with
        | Raw _ => (Raise BadZipFile, w)
        | Archive members =>
            let old := match dict_get (dirs w) unzipped_dir with
                       | Some d => d
                       | None => []
                       end in
            (Ok tt, mkWorld (environ w) (http w) (bucket w) (files w)
                            (dict_set (dirs w) unzipped_dir (dict_update old members))
                            (log w ++ [Extracted p unzipped_dir]))
        end
    end.

Definition get_request_headers : M (dict string) :=
  fun w =>
    match dict_get (environ w) "GITHUB_TOKEN" with
    | Some token => (Ok [("Accept", "application/vnd.github.v3+json");
                         ("Authorization", ("token " ++ token)%string)], w)
    | None => (Raise KeyError, w)
    end.

(** [requests.get(url, headers=headers).content] *)
Definition requests_get (url : string) (headers : dict string) : M blob :=
  fun w => match http w url headers with
           | Some b => (Ok b, w)
           | None => (Raise ConnectionError, w)
           end.

Definition int_or_raise (o : option Z) : M Z :=
  match o with Some n => ret n | None => raise ValueError end.

Definition skip_message (artifact_name : string) (expected found : Z) : string :=
  ("Skipping " ++ artifact_name ++ " as it is an invalid run attempt. "
   ++ "Expected " ++ of_int expected ++ ", found " ++ of_int found ++ ".")%string.

(** The loop over the atoms of the name. *)
Definition check_atom (artifact_name : string) (workflow_run_attempt : Z)
    (_ : unit) (atom : string) : M unit :=
  if startswith "runattempt" atom then
    found_run_attempt <-
      int_or_raise (py_int (drop (String.length "runattempt") atom)) ;;
    if negb (workflow_run_attempt =? found_run_attempt)
    then print (skip_message artifact_name workflow_run_attempt found_run_attempt)
    else ret tt
  else ret tt.

Definition check_run_attempt (artifact_name : string) (workflow_run_attempt : Z)
  : M unit :=
  let atoms := split "-" artifact_name in
  for_in atoms tt (check_atom artifact_name workflow_run_attempt).

(** What follows the loop. *)
Definition fetch_and_unzip (artifact_name artifact_url : string) : M unit :=
  print ("Downloading and extracting " ++ artifact_name)%string ;;
  headers <- get_request_headers ;;
  content <- requests_get artifact_url headers ;;
  write_file artifact_name content ;;
  unzip artifact_name.

Definition download_and_extract_artifact
    (artifact_name artifact_url : string) (workflow_run_attempt : Z) : M unit :=
  check_run_attempt artifact_name workflow_run_attempt ;;
  fetch_and_unzip artifact_name artifact_url.

(** [Path(key).name]: the last part of the key. *)
Definition path_name (k : string) : string :=
  last (filter (fun part => negb (String.eqb part EmptyString)
                           && negb (String.eqb part "."))
               (split "/" k)) EmptyString.

Definition s3_prefix (workflow_run_id workflow_run_attempt : Z) : string :=
  ("pytorch/pytorch/" ++ of_int workflow_run_id ++ "/"
   ++ of_int workflow_run_attempt ++ "/artifact/test-reports")%string.

(** [bucket.objects.filter(Prefix=prefix)] *)
Definition objects_filter (prefix : string) (w : world) : list S3Object :=
  filter (fun obj => startswith prefix (key obj)) (bucket w).

Definition s3_get (obj : S3Object) : M blob :=
  match body obj with
  | Some b => ret b
  | None => raise ClientError
  end.

Definition no_reports : string :=
  "Didn't find any test reports in s3, there is probably a bug!".

(** One round of the loop over the objects. *)
Definition retrieve_object (found_one : bool) (obj : S3Object) : M bool :=
  let found_one := true in
  let p := path_name (key obj) in
  print ("Downloading and extracting " ++ p)%string ;;
  content <- s3_get obj ;;
  write_file p content ;;
  unzip p ;;
  ret found_one.

Definition download_and_extract_s3_reports
    (workflow_run_id workflow_run_attempt : Z) : M unit :=
  fun w =>
    let objs := objects_filter (s3_prefix workflow_run_id workflow_run_attempt) w in
    (found_one <- for_in objs false retrieve_object ;;
     if negb found_one then raise (RuntimeError no_reports) else ret tt) w.

(** * Vocabulary of the properties *)

(** The condition [o and o.strip()]. *)
Definition nonblank (o : option string) : bool :=
  match o with
  | Some t => truthy t && truthy (strip t)
  | None => false
  end.

(** What the two [try] blocks leave for the attribute value [v]. *)
Definition coerced (v : string) : value :=
  match py_float v with
  | Some f => VFloat f
  | None => VStr v
  end.

(** The last child with tag [k]. *)
Fixpoint last_child (k : string) (cs : list Element) : option Element :=
  match cs with
  | [] => None
  | c :: r =>
      match last_child k r with
      | Some c' => Some c'
      | None => if String.eqb (tag c) k then Some c else None
      end
  end.

Definition add_child (ret : record) (child : Element) : record :=
  dict_set ret (tag child) (VDict (process_xml_element child)).

(** [nonblank] says: not [None], not empty and not only whitespace. *)
Definition present (o : option string) : Prop :=
  exists t, o = Some t /\ t <> EmptyString /\ forallb py_isspace (chars t) = false.

(** No attribute and no child of [e] is called [k]. *)
Definition no_collision (k : string) (e : Element) : Prop :=
  ~ In k (keys (attrib e)) /\ forall c, In c (children e) -> tag c <> k.

(** 3.0, as [3 * 2^51 * 2^-51] *)
Definition float_3 : spec_float := S754_finite false 6755399441055744 (-51).

(** 0.5, as [2^52 * 2^-53] *)
Definition float_0_5 : spec_float := S754_finite false 4503599627370496 (-53).

Definition report_path : Path :=
  ["unzipped-test-reports-foo_5596745227"; "test"; "test-reports"; "foo";
   "TEST-foo.xml"].

(** [<testsuite name="Foo" tests="3"><testcase name="bar" time="0.5"/></testsuite>] *)
Definition sample_document : Element :=
  mkElement "testsuite" [("name", "Foo"); ("tests", "3")] None None
    [mkElement "testcase" [("name", "bar"); ("time", "0.5")] None None []].

Definition metadata (workflow_id workflow_run_attempt job_id : Z) : record :=
  [("workflow_id", VInt workflow_id);
   ("workflow_run_attempt", VInt workflow_run_attempt);
   ("job_id", VInt job_id)].

(** C6 as it is stated: a [text] field exactly when the inner text is not
    blank, a [tail] field exactly when the trailing text is not blank. *)
Definition text_tail_exactly_when_present (e : Element) : Prop :=
  (In "text" (keys (process_xml_element e)) <-> present (text e))
  /\ (In "tail" (keys (process_xml_element e)) <-> present (tail e)).

Definition two_results : Element :=
  mkElement "testcase" [("name", "t")] None None
    [mkElement "result" [("n", "first")] None None [];
     mkElement "skipped" [] None None [];
     mkElement "result" [("n", "last")] None None []].

Definition named_children : Element :=
  mkElement "testcase" [("name", "t")] (Some "inner") None
    [mkElement "name" [] None None [];
     mkElement "text" [("k", "v")] None None []].

Definition padded_text : Element :=
  mkElement "testcase" [] (Some "  my_inner_text ") (Some " my_tail") [].

(** [<testcase workflow_id="1" job_id="zzz"><workflow_run_attempt/></testcase>] *)
Definition shadowing_document : Element :=
  mkElement "testcase" [("workflow_id", "1"); ("job_id", "zzz")] None None
    [mkElement "workflow_run_attempt" [] None None []].

(** The segment does not end in an underscore followed by an integer. *)
Definition no_trailing_int (seg : string) : Prop :=
  forall p i : string, seg = (p ++ "_" ++ i)%string -> py_int i = None.

(** [no_trailing_int], computed *)
Fixpoint trailing_int (seg : string) : bool :=
  match seg with
  | EmptyString => false
  | String c r =>
      (Ascii.eqb c "_" && match py_int r with Some _ => true | None => false end)
      || trailing_int r
  end.

(** C3 as it is stated, for the first segment [seg] of the path. *)
Definition fails_without_trailing_int (seg : string) : Prop :=
  no_trailing_int seg ->
  forall (t : string) (rest : Path) (document : result Element)
         (workflow_id workflow_run_attempt : Z),
    parse_xml_report t (seg :: rest) document workflow_id workflow_run_attempt
    = Raise ValueError.

(** The objects that the listing yields. *)
Definition found_objects (workflow_run_id workflow_run_attempt : Z) (w : world)
  : list S3Object :=
  objects_filter (s3_prefix workflow_run_id workflow_run_attempt) w.

(** The object can be read and is a zip archive. *)
Definition retrievable (obj : S3Object) : Prop :=
  exists members, body obj = Some (Archive members).

(** What the retrieval of one object does: the message, then the download
    and the extraction. *)
Definition retrieval (obj : S3Object) : list event :=
  let p := path_name (key obj) in
  Printed ("Downloading and extracting " ++ p)%string
  :: match body obj with
     | Some b => [Written p b; Extracted p ("unzipped-" ++ stem p)%string]
     | None => []
     end.

Definition raises {A} (r : result A) : Prop := exists e, r = Raise e.

(** C4 as it is stated: an error exactly when nothing is found; otherwise
    every object found is downloaded and extracted. *)
Definition raises_exactly_when_none_found
    (workflow_run_id workflow_run_attempt : Z) (w : world) : Prop :=
  let found := found_objects workflow_run_id workflow_run_attempt w in
  let r := download_and_extract_s3_reports workflow_run_id workflow_run_attempt w in
  (raises (fst r) <-> found = [])
  /\ (found <> [] ->
      fst r = Ok tt /\ log (snd r) = log w ++ flat_map retrieval found).

Definition unreadable_object : world :=
  mkWorld [] (fun _ _ => None)
          [mkS3Object "pytorch/pytorch/12/1/artifact/test-reports-foo_77.zip" None]
          [] [] [].

Definition not_an_archive : world :=
  mkWorld [] (fun _ _ => None)
          [mkS3Object "pytorch/pytorch/12/1/artifact/test-reports-foo_77.zip"
                      (Some (Raw "<html>502 Bad Gateway</html>"))]
          [] [] [].

Definition two_reports : world :=
  mkWorld [] (fun _ _ => None)
          [mkS3Object "pytorch/pytorch/12/1/artifact/test-reports-foo_77.zip"
                      (Some (Archive [("test/TEST-a.xml", "<testsuite/>")]));
           mkS3Object "pytorch/pytorch/12/2/artifact/test-reports-foo_78.zip"
                      (Some (Raw "other attempt"));
           mkS3Object "pytorch/pytorch/12/1/artifact/test-reports-bar_79.zip"
                      (Some (Archive []))]
          [] [] [].

(** The atom [atom] of the name is a token [runattempt<n>]. *)
Definition run_attempt_token (artifact_name atom : string) (n : Z) : Prop :=
  In atom (split "-" artifact_name)
  /\ startswith "runattempt" atom = true
  /\ py_int (drop (String.length "runattempt") atom) = Some n.

(** The messages on the tokens that differ from the requested attempt, in
    the order of the atoms. *)
Definition skip_events_of (artifact_name : string) (workflow_run_attempt : Z)
    (atoms : list string) : list event :=
  flat_map
    (fun atom =>
       if startswith "runattempt" atom then
         match py_int (drop (String.length "runattempt") atom) with
         | Some n =>
             if negb (workflow_run_attempt =? n)
             then [Printed (skip_message artifact_name workflow_run_attempt n)]
             else []
         | None => []
         end
       else [])
    atoms.

Definition skip_events (artifact_name : string) (workflow_run_attempt : Z)
  : list event :=
  skip_events_of artifact_name workflow_run_attempt (split "-" artifact_name).

(** Every atom that starts with [runattempt] goes on with an integer. *)
Definition tokens_well_formed (atoms : list string) : Prop :=
  forall atom, In atom atoms -> startswith "runattempt" atom = true ->
               py_int (drop (String.length "runattempt") atom) <> None.

(** [tokens_well_formed], computed *)
Definition tokens_well_formedb (atoms : list string) : bool :=
  forallb (fun atom =>
             negb (startswith "runattempt" atom)
             || match py_int (drop (String.length "runattempt") atom) with
                | Some _ => true
                | None => false
                end)
          atoms.

(** C5 as it is stated: with a token [runattempt<n>] that differs from the
    requested attempt, the loop only prints, the message on that token
    included, and the call then does what follows the loop. *)
Definition mismatch_is_only_logged
    (artifact_name artifact_url : string) (workflow_run_attempt : Z) (w : world)
  : Prop :=
  forall (atom : string) (n : Z),
    run_attempt_token artifact_name atom n ->
    n <> workflow_run_attempt ->
    check_run_attempt artifact_name workflow_run_attempt w
    = (Ok tt, add_log (skip_events artifact_name workflow_run_attempt) w)
    /\ In (Printed (skip_message artifact_name workflow_run_attempt n))
          (skip_events artifact_name workflow_run_attempt)
    /\ download_and_extract_artifact artifact_name artifact_url workflow_run_attempt w
       = fetch_and_unzip artifact_name artifact_url
           (add_log (skip_events artifact_name workflow_run_attempt) w).

Definition github : world :=
  mkWorld [("GITHUB_TOKEN", "secret")]
          (fun _ _ => Some (Archive [("test/TEST-a.xml", "<testsuite/>")]))
          [] [] [] [].

(** * The artifacts of the workflow run *)

(** [p in s] for two strings *)
Fixpoint contains (p s : string) : bool :=
  String.prefix p s
  || match s with
     | EmptyString => false
     | String _ r => contains p r
     end.

(** The parts of [Path(s)] after its root. *)
Definition path_parts (s : string) : list string :=
  filter (fun part => negb (String.eqb part EmptyString)
                      && negb (String.eqb part "."))
         (split "/" s).

(** The root of [Path(s)]: two leading slashes are kept, any other number
    of them is one. *)
Definition path_root (s : string) : string :=
  match s with
  | String "/" (String "/" (String "/" _)) => "/"
  | String "/" (String "/" _) => "//"
  | String "/" _ => "/"
  | _ => EmptyString
  end.

(** [str(Path(s))]; two paths are equal when these strings are. *)
Definition path_str (s : string) : string :=
  match path_root s, path_parts s with
  | EmptyString, [] => "."
  | root, parts => (root ++ String.concat "/" parts)%string
  end.

(** A response of the artifacts API: the names and download URLs of its
    ["artifacts"], and the response that its [next] link leads to, when it
    has one. *)
Inductive page : Type :=
  Page (artifacts : list (string * string)) (next : option page).

Definition page_artifacts (response : page) : list (string * string) :=
  match response with Page artifacts _ => artifacts end.

Definition PYTORCH_REPO : string := "https://api.github.com/repos/pytorch/pytorch".

Definition artifacts_url (workflow_run_id : Z) : string :=
  (PYTORCH_REPO ++ "/actions/runs/" ++ of_int workflow_run_id
   ++ "/artifacts?per_page=100")%string.

(** The loop on the [next] links: what it appends to [artifacts]. *)
Fixpoint following_pages (response : page) : M (list (string * string)) :=
  match response with
  | Page _ None => ret []
  | Page _ (Some response') =>
      _ <- get_request_headers ;;
      more <- following_pages response' ;;
      ret (page_artifacts response' ++ more)
  end.

(** The loop that fills [artifact_urls]. *)
Definition select_reports (artifacts : list (string * string)) : dict string :=
  fold_left
    (fun artifact_urls artifact =>
       if contains "test-report" (fst artifact)
       then dict_set artifact_urls (path_str (fst artifact)) (snd artifact)
       else artifact_urls)
    artifacts [].

(** [api url] is the response to the first request, which carries no
    headers; the requests to the API are always answered. *)
Definition get_artifact_urls (api : string -> page) (workflow_run_id : Z)
  : M (dict string) :=
  let response := api (artifacts_url workflow_run_id) in
  more <- following_pages response ;;
  ret (select_reports (page_artifacts response ++ more)).


(** * Vocabulary of the further properties *)

(** The record of [parse_xml_report] for an element. *)
Definition with_metadata (workflow_id workflow_run_attempt job_id : Z)
    (test_case : Element) : record :=
  dict_set
    (dict_set
       (dict_set (process_xml_element test_case) "workflow_id" (VInt workflow_id))
       "workflow_run_attempt" (VInt workflow_run_attempt))
    "job_id" (VInt job_id).

(** [el] is [root] or lies inside it, at any depth. *)
Inductive inside (root : Element) : Element -> Prop :=
| inside_root : inside root root
| inside_child (parent el : Element) :
    inside root parent -> In el (children parent) -> inside root el.

(** The two worlds differ in their logs at most. *)
Definition same_but_log (w1 w2 : world) : Prop :=
  environ w1 = environ w2 /\ http w1 = http w2 /\ bucket w1 = bucket w2
  /\ files w1 = files w2 /\ dirs w1 = dirs w2.

(** The artifacts of all the responses, in the order of the requests. *)
Fixpoint all_artifacts (response : page) : list (string * string) :=
  match response with
  | Page artifacts None => artifacts
  | Page artifacts (Some response') => artifacts ++ all_artifacts response'
  end.



Definition nested_suites : Element :=
  mkElement "testsuites" [] None None
    [mkElement "testsuite" [("name", "outer")] None None
       [mkElement "testsuite" [("name", "inner")] None None []]].



(** Two computations give the same result and worlds that differ in their
    logs at most, when run in such worlds. *)
Definition related {A} (m1 m2 : M A) : Prop :=
  forall w1 w2, same_but_log w1 w2 ->
                fst (m1 w1) = fst (m2 w2)
                /\ same_but_log (snd (m1 w1)) (snd (m2 w2)).

Definition bad_gateway : world :=
  mkWorld [("GITHUB_TOKEN", "secret")]
          (fun _ _ => Some (Raw "<html>502 Bad Gateway</html>"))
          [] [] [] [].

(** The artifact is a test report whose path is [k]. *)
Definition is_report_for (k : string) (artifact : string * string) : bool :=
  contains "test-report" (fst artifact) && String.eqb (path_str (fst artifact)) k.

(** The last artifact of the list that is a test report with the path [k]. *)
Definition last_report (k : string) (artifacts : list (string * string))
  : option (string * string) :=
  find (is_report_for k) (rev artifacts).

Definition two_pages (url : string) : page :=
  Page [("test-reports-runattempt1-linux", "https://example.org/1");
        ("sccache-stats-linux", "https://example.org/2")]
       (Some (Page [("docs", "https://example.org/3");
                    ("./test-reports-runattempt1-linux", "https://example.org/4")]
                   None)).

Definition no_token : world := mkWorld [] (fun _ _ => None) [] [] [] [].


(** * Properties *)

(** ** Strings *)

Section StringFacts.

Lemma rsplit1_app (sep : ascii) (s b a : string) :
  rsplit1 sep s = Some (b, a) -> s = (b ++ String sep a)%string.
Proof.
  revert b a; induction s as [|c r IH]; intros b a H; simpl in H.
  - discriminate.
  - destruct (rsplit1 sep r) as [[b' a']|].
    + inversion H; subst; simpl. now rewrite (IH b' a).
    + destruct (Ascii.eqb c sep) eqn:E; [|discriminate].
      apply Ascii.eqb_eq in E. inversion H; subst. reflexivity.
Qed.

Lemma lstrip_by_nil (sp : ascii -> bool) (cs : list ascii) :
  lstrip_by sp cs = [] <-> forallb sp cs = true.
Proof.
  induction cs as [|c r IH]; simpl.
  - tauto.
  - destruct (sp c); simpl; [exact IH|]. split; discriminate.
Qed.

Lemma strip_by_nil (sp : ascii -> bool) (cs : list ascii) :
  strip_by sp cs = [] <-> forallb sp cs = true.
Proof.
  unfold strip_by. rewrite <- lstrip_by_nil. split; intros H.
  - apply (f_equal (@rev ascii)) in H. rewrite rev_involutive in H. simpl in H.
    apply lstrip_by_nil in H. rewrite forallb_forall in H.
    destruct (lstrip_by sp cs) as [|c r] eqn:E; [reflexivity|].
    assert (Hc : sp c = true) by (apply H, in_rev; rewrite rev_involutive; now left).
    clear H. exfalso. revert E Hc. clear.
    induction cs as [|c' r' IH]; simpl; [discriminate|].
    destruct (sp c') eqn:E'; [exact IH|].
    intros H; inversion H; subst. congruence.
  - now rewrite H.
Qed.

End StringFacts.

(** [bool(t.strip())] says that [t] has a character that is no whitespace. *)
Lemma truthy_strip (t : string) :
  truthy (strip t) = negb (forallb py_isspace (chars t)).
Proof.
  unfold strip. destruct (forallb py_isspace (chars t)) eqn:E.
  - apply strip_by_nil in E. now rewrite E.
  - destruct (strip_by py_isspace (chars t)) eqn:E'; [|reflexivity].
    apply strip_by_nil in E'. congruence.
Qed.

(** ** Numbers *)

(** What [int] accepts, [float] accepts. *)
Lemma int_body_float_body (cs : list ascii) (n : Z) :
  int_body cs = Some n ->
  exists (neg : bool) (v : Z), n = (if neg then - v else v)
                /\ float_body cs = Some (float_of_decimal neg v 0).
Proof.
  unfold int_body, float_body. destruct (take_sign cs) as [neg r].
  destruct (digitpart r) as [[[v k] [|c r']]|]; try discriminate.
  intros H; inversion H; subst. exists neg, v. split; reflexivity.
Qed.

Lemma py_int_py_float (s : string) (n : Z) :
  py_int s = Some n -> py_float s <> None.
Proof.
  unfold py_int, py_float. intros H.
  destruct (int_body_float_body _ _ H) as (neg & v & _ & ->). discriminate.
Qed.

(** ** Dictionaries *)

Section DictFacts.
Context {V : Type}.
Implicit Types (d : dict V) (k : string) (v : V).

Lemma dict_get_set d k v k' :
  dict_get (dict_set d k v) k' = if String.eqb k k' then Some v else dict_get d k'.
Proof.
  induction d as [|[k0 v0] r IH]; simpl.
  - reflexivity.
  - destruct (String.eqb k0 k) eqn:E; simpl.
    + apply String.eqb_eq in E. subst k0. now destruct (String.eqb k k').
    + rewrite IH. destruct (String.eqb k0 k') eqn:E'; [|reflexivity].
      apply String.eqb_eq in E'. subst k'. now rewrite String.eqb_sym, E.
Qed.

Lemma dict_get_set_same d k v : dict_get (dict_set d k v) k = Some v.
Proof. now rewrite dict_get_set, String.eqb_refl. Qed.


Lemma dict_get_In d k : In k (keys d) <-> dict_get d k <> None.
Proof.
  induction d as [|[k0 v0] r IH]; simpl.
  - tauto.
  - destruct (String.eqb k0 k) eqn:E.
    + apply String.eqb_eq in E. split; [discriminate|auto].
    + apply String.eqb_neq in E. rewrite <- IH. tauto.
Qed.

Lemma keys_dict_set d k v :
  keys (dict_set d k v) = if in_dec string_dec k (keys d) then keys d else keys d ++ [k].
Proof.
  induction d as [|[k0 v0] r IH]; simpl.
  - reflexivity.
  - destruct (String.eqb k0 k) eqn:E.
    + apply String.eqb_eq in E; subst. simpl.
      destruct (string_dec k k); [|congruence].
      now destruct (in_dec string_dec k (keys r)).
    + apply String.eqb_neq in E. simpl. rewrite IH.
      destruct (string_dec k0 k); [congruence|].
      now destruct (in_dec string_dec k (keys r)).
Qed.

Lemma NoDup_keys_dict_set d k v : NoDup (keys d) -> NoDup (keys (dict_set d k v)).
Proof.
  intros H. rewrite keys_dict_set.
  destruct (in_dec string_dec k (keys d)) as [|n]; [assumption|].
  apply NoDup_app; [assumption|repeat constructor; auto|].
  intros x Hx [<-|[]]. contradiction.
Qed.

Lemma NoDup_keys_dict_update (d other : dict V) :
  NoDup (keys d) -> NoDup (keys (dict_update d other)).
Proof.
  unfold dict_update. revert d.
  induction other as [|[k v] r IH]; intros d H; simpl; [assumption|].
  apply IH, NoDup_keys_dict_set, H.
Qed.

End DictFacts.

Lemma In_keys_dict_set {V} (d : dict V) (k : string) (v : V) (x : string) :
  In x (keys (dict_set d k v)) <-> x = k \/ In x (keys d).
Proof.
  rewrite !dict_get_In, dict_get_set. destruct (String.eqb k x) eqn:E.
  - apply String.eqb_eq in E. split; [auto|discriminate].
  - apply String.eqb_neq in E. split; [auto|]. intros [->|H]; [congruence|exact H].
Qed.

Lemma In_keys_dict_update {V} (other d : dict V) (x : string) :
  In x (keys (dict_update d other)) <-> In x (keys d) \/ In x (keys other).
Proof.
  unfold dict_update. revert d.
  induction other as [|[k v] r IH]; intros d; simpl.
  - tauto.
  - rewrite IH, In_keys_dict_set. intuition congruence.
Qed.

(** ** Normalisation of one element *)

Lemma process_xml_element_eq (e : Element) :
  process_xml_element e = fold_left add_child (children e) (own_fields e).
Proof. destruct e; reflexivity. Qed.

Lemma coerce_get (ret : record) (k v k' : string) :
  dict_get (coerce ret (k, v)) k'
  = if String.eqb k k'
    then match py_float v with
         | Some f => Some (VFloat f)
         | None => dict_get ret k'
         end
    else dict_get ret k'.
Proof.
  unfold coerce. destruct (py_int v) as [n|] eqn:Ei, (py_float v) as [f|] eqn:Ef;
    rewrite ?dict_get_set; try reflexivity.
  - now destruct (String.eqb k k').
  - now apply py_int_py_float in Ei.
  - now destruct (String.eqb k k').
Qed.

Lemma fold_coerce_get (items : dict string) :
  forall (ret : record) (k : string),
    NoDup (keys items) ->
    (forall k v, dict_get items k = Some v -> dict_get ret k = Some (VStr v)) ->
    dict_get (fold_left coerce items ret) k
    = match dict_get items k with
      | Some v => Some (coerced v)
      | None => dict_get ret k
      end.
Proof.
  induction items as [|[k0 v0] r IH]; intros ret k ND Hret.
  - reflexivity.
  - simpl in ND. inversion ND as [|? ? Hnotin ND']; subst.
    cbn [fold_left dict_get]. rewrite IH; [|assumption|].
    + rewrite coerce_get. destruct (String.eqb k0 k) eqn:E.
      * apply String.eqb_eq in E. subst k.
        destruct (dict_get r k0) eqn:Er.
        { exfalso. apply Hnotin, dict_get_In. congruence. }
        unfold coerced. destruct (py_float v0); [reflexivity|].
        apply Hret. simpl. now rewrite String.eqb_refl.
      * reflexivity.
    + intros k1 v1 H1. rewrite coerce_get.
      destruct (String.eqb k0 k1) eqn:E.
      * apply String.eqb_eq in E. subst k1. exfalso.
        apply Hnotin, dict_get_In. congruence.
      * apply Hret. simpl. now rewrite E.
Qed.

Lemma dict_get_map_VStr (items : dict string) (k : string) :
  dict_get (map (fun kv => (fst kv, VStr (snd kv))) items) k
  = option_map VStr (dict_get items k).
Proof.
  induction items as [|[k0 v0] r IH]; simpl; [reflexivity|].
  now destruct (String.eqb k0 k).
Qed.

Lemma keys_map_VStr (items : dict string) :
  keys (map (fun kv => (fst kv, VStr (snd kv))) items) = keys items.
Proof. unfold keys. rewrite map_map. reflexivity. Qed.

Lemma store_text_get (ret : record) (k : string) (o : option string) (k' : string) :
  dict_get (store_text ret k o) k'
  = if String.eqb k k' && nonblank o then option_map VStr o else dict_get ret k'.
Proof.
  unfold store_text, nonblank. destruct o as [t|]; [|now rewrite andb_false_r].
  destruct (truthy t && truthy (strip t)).
  - rewrite dict_get_set, andb_true_r. reflexivity.
  - now rewrite andb_false_r.
Qed.

(** The fields an element has before its children are added. *)
Lemma own_fields_get (e : Element) (k : string) :
  dict_get (own_fields e) k
  = if String.eqb "tail" k && nonblank (tail e) then option_map VStr (tail e)
    else if String.eqb "text" k && nonblank (text e) then option_map VStr (text e)
    else option_map coerced (dict_get (dict_update [] (attrib e)) k).
Proof.
  unfold own_fields. rewrite !store_text_get.
  destruct (String.eqb "tail" k && nonblank (tail e)); [reflexivity|].
  destruct (String.eqb "text" k && nonblank (text e)); [reflexivity|].
  rewrite fold_coerce_get.
  - rewrite dict_get_map_VStr. now destruct (dict_get _ k).
  - apply NoDup_keys_dict_update. constructor.
  - intros k1 v1 H. now rewrite dict_get_map_VStr, H.
Qed.

Lemma fold_children_get (cs : list Element) :
  forall (ret : record) (k : string),
    dict_get (fold_left add_child cs ret) k
    = match last_child k cs with
      | Some c => Some (VDict (process_xml_element c))
      | None => dict_get ret k
      end.
Proof.
  induction cs as [|c r IH]; intros ret k; simpl; [reflexivity|].
  rewrite IH. destruct (last_child k r); [reflexivity|].
  unfold add_child. rewrite dict_get_set. now destruct (String.eqb (tag c) k).
Qed.

Lemma process_xml_element_get (e : Element) (k : string) :
  dict_get (process_xml_element e) k
  = match last_child k (children e) with
    | Some c => Some (VDict (process_xml_element c))
    | None => dict_get (own_fields e) k
    end.
Proof. rewrite process_xml_element_eq. apply fold_children_get. Qed.

Lemma last_child_None (k : string) (cs : list Element) :
  last_child k cs = None <-> (forall c, In c cs -> tag c <> k).
Proof.
  induction cs as [|c r IH]; simpl.
  - split; [intros _ ? []|reflexivity].
  - destruct (last_child k r) as [c'|].
    + split; [discriminate|]. intros H. exfalso.
      assert (Hn : @None Element = None) by reflexivity.
      assert (Hr : forall c0, In c0 r -> tag c0 <> k) by (intros; apply H; now right).
      apply IH in Hr. discriminate.
    + destruct (String.eqb (tag c) k) eqn:E.
      * apply String.eqb_eq in E. split; [discriminate|].
        intros H. exfalso. exact (H c (or_introl eq_refl) E).
      * apply String.eqb_neq in E. split; [|reflexivity].
        intros _ c0 [<-|H0]; [exact E|]. now apply (proj1 IH).
Qed.

Lemma NoDup_keys_fold_coerce (items : dict string) :
  forall ret : record, NoDup (keys ret) -> NoDup (keys (fold_left coerce items ret)).
Proof.
  induction items as [|[k v] r IH]; intros ret H; simpl; [assumption|].
  apply IH. unfold coerce.
  destruct (py_int v), (py_float v); repeat apply NoDup_keys_dict_set; assumption.
Qed.

Lemma NoDup_keys_store_text (ret : record) (k : string) (o : option string) :
  NoDup (keys ret) -> NoDup (keys (store_text ret k o)).
Proof.
  intros H. unfold store_text. destruct o as [t|]; [|assumption].
  destruct (truthy t && truthy (strip t)); [|assumption].
  now apply NoDup_keys_dict_set.
Qed.

Lemma NoDup_keys_process_xml_element (e : Element) :
  NoDup (keys (process_xml_element e)).
Proof.
  rewrite process_xml_element_eq.
  assert (H : NoDup (keys (own_fields e))).
  { unfold own_fields. do 2 apply NoDup_keys_store_text.
    apply NoDup_keys_fold_coerce. rewrite keys_map_VStr.
    apply NoDup_keys_dict_update. constructor. }
  revert H. generalize (own_fields e).
  induction (children e) as [|c r IH]; intros ret H; simpl; [assumption|].
  apply IH. unfold add_child. now apply NoDup_keys_dict_set.
Qed.

Lemma nonblank_present (o : option string) : nonblank o = true <-> present o.
Proof.
  unfold nonblank, present. destruct o as [t|].
  - rewrite truthy_strip, andb_true_iff, negb_true_iff. split.
    + intros [H1 H2]. exists t. repeat split; [|assumption].
      intros ->. discriminate.
    + intros (t' & E & H1 & H2). inversion E; subst t'. split; [|assumption].
      destruct t; [congruence|reflexivity].
  - split; [discriminate|]. intros (t & E & _). discriminate.
Qed.

Lemma attribute_get_None (e : Element) (k : string) :
  ~ In k (keys (attrib e)) -> dict_get (dict_update [] (attrib e)) k = None.
Proof.
  intros H. destruct (dict_get _ k) eqn:E; [|reflexivity]. exfalso. apply H.
  assert (Hin : In k (keys (dict_update [] (attrib e))))
    by (apply dict_get_In; congruence).
  apply In_keys_dict_update in Hin. destruct Hin as [[]|Hin]. exact Hin.
Qed.

Lemma attribute_get_Some (e : Element) (k : string) :
  In k (keys (attrib e)) -> dict_get (dict_update [] (attrib e)) k <> None.
Proof. intros H. apply dict_get_In, In_keys_dict_update. now right. Qed.

(** No field of [own_fields] is a dictionary. *)
Lemma own_fields_no_dict (e : Element) (k : string) (d : record) :
  dict_get (own_fields e) k <> Some (VDict d).
Proof.
  rewrite own_fields_get.
  destruct (String.eqb "tail" k && nonblank (tail e)); [now destruct (tail e)|].
  destruct (String.eqb "text" k && nonblank (text e)); [now destruct (text e)|].
  destruct (dict_get _ k); [|discriminate]. unfold coerced. simpl.
  now destruct (py_float s).
Qed.

(** ** Claims on [process_xml_element] *)

(** An attribute that collides with nothing is stored as the float that
    [float] reads, or else as its string. *)
Lemma attribute_field (e : Element) (k v : string) :
  dict_get (dict_update [] (attrib e)) k = Some v ->
  k <> "text" -> k <> "tail" -> (forall c, In c (children e) -> tag c <> k) ->
  dict_get (process_xml_element e) k = Some (coerced v).
Proof.
  intros Hv Htext Htail Hch. rewrite process_xml_element_get.
  apply last_child_None in Hch. rewrite Hch, own_fields_get, Hv.
  apply not_eq_sym, String.eqb_neq in Htext, Htail.
  now rewrite Htext, Htail.
Qed.

(** C1 (defect of the code). The claim says that an attribute value that
    parses as an integer is stored as an integer. The code runs the [float]
    conversion after the [int] conversion, on the same string, and [float]
    accepts whatever [int] accepts: the attribute [tests="3"], which [int]
    reads as 3, is stored as the float 3.0 (6755399441055744 * 2^-51), and
    no field of any record is an integer. *)
Theorem C1_integer_attribute_is_stored_as_float :
  py_int "3" = Some 3
  /\ process_xml_element (mkElement "testsuite" [("tests", "3")] None None [])
     = [("tests", VFloat float_3)]
  /\ (forall (e : Element) (k : string),
        match dict_get (process_xml_element e) k with
        | Some (VInt _) => False
        | _ => True
        end).
Proof.
  split; [reflexivity|]. split; [reflexivity|].
  intros e k. rewrite process_xml_element_get.
  destruct (last_child k (children e)); [exact I|].
  rewrite own_fields_get.
  destruct (String.eqb "tail" k && nonblank (tail e)); [now destruct (tail e)|].
  destruct (String.eqb "text" k && nonblank (text e)); [now destruct (text e)|].
  destruct (dict_get _ k) as [v|]; [|exact I]. unfold coerced. simpl.
  now destruct (py_float v).
Qed.

(** C2 (defect of the code, the one of C1). For the sample document under
    [unzipped-test-reports-foo_5596745227/], the tag ["testcase"] gives the
    one record of the claim. The tag ["testsuite"] gives one record whose
    field [tests] is the float 3.0, where the claim has the integer 3; the
    rest of the record is as claimed. *)
Theorem C2_sample_document_records (workflow_id workflow_run_attempt : Z) :
  parse_xml_report "testcase" report_path (Ok sample_document)
                   workflow_id workflow_run_attempt
  = Ok [[("name", VStr "bar"); ("time", VFloat float_0_5)]
        ++ metadata workflow_id workflow_run_attempt 5596745227]
  /\ parse_xml_report "testsuite" report_path (Ok sample_document)
                      workflow_id workflow_run_attempt
     = Ok [[("name", VStr "Foo"); ("tests", VFloat float_3);
            ("testcase", VDict [("name", VStr "bar"); ("time", VFloat float_0_5)])]
           ++ metadata workflow_id workflow_run_attempt 5596745227].
Proof. split; reflexivity. Qed.

(** The record for ["testsuite"] is not the one with the integer 3. *)
Lemma sample_testsuite_record_has_no_int (workflow_id workflow_run_attempt : Z) :
  parse_xml_report "testsuite" report_path (Ok sample_document)
                   workflow_id workflow_run_attempt
  <> Ok [[("name", VStr "Foo"); ("tests", VInt 3);
          ("testcase", VDict [("name", VStr "bar"); ("time", VFloat float_0_5)])]
         ++ metadata workflow_id workflow_run_attempt 5596745227].
Proof. intros H. vm_compute in H. discriminate H. Qed.

(** C6 fails for [<testcase text="abc"/>]: the attribute gives a [text]
    field to an element without inner text. *)
Lemma C6_counterexample :
  ~ text_tail_exactly_when_present
      (mkElement "testcase" [("text", "abc")] None None []).
Proof.
  intros [H _]. destruct (proj1 H) as (t & E & _).
  - vm_compute. now left.
  - discriminate E.
Qed.

(** C6 (amended). For an element with no attribute and no child called
    [text], the record has a [text] field exactly when the inner text is
    neither empty nor only whitespace; the same for [tail] and the trailing
    text. *)
Theorem C6_text_tail_fields (e : Element) :
  (no_collision "text" e ->
   (In "text" (keys (process_xml_element e)) <-> present (text e)))
  /\ (no_collision "tail" e ->
      (In "tail" (keys (process_xml_element e)) <-> present (tail e))).
Proof.
  split; intros [Ha Hc]; rewrite dict_get_In, process_xml_element_get;
    apply last_child_None in Hc; rewrite Hc, own_fields_get;
    rewrite (attribute_get_None _ _ Ha), <- nonblank_present; simpl.
  - destruct (nonblank (tail e)), (nonblank (text e)) eqn:E; simpl;
      try (split; [reflexivity|discriminate]);
      try (split; [congruence|discriminate]).
    + destruct (text e); [split; [reflexivity|discriminate]|discriminate].
    + destruct (text e); [split; [reflexivity|discriminate]|discriminate].
  - destruct (nonblank (tail e)) eqn:E; simpl.
    + destruct (tail e); [split; [reflexivity|discriminate]|discriminate].
    + destruct (String.eqb "text" "tail" && nonblank (text e)) eqn:E'; simpl in E';
        [discriminate|]. split; [congruence|discriminate].
Qed.

Lemma C6_text_tail_fields_witness :
  (In "text" (keys (process_xml_element
                      (mkElement "testcase" [("name", "t")] (Some " hi ") (Some "  ") [])))
   <-> present (Some " hi "))
  /\ (In "tail" (keys (process_xml_element
                         (mkElement "testcase" [("name", "t")] (Some " hi ") (Some "  ") [])))
      <-> present (Some "  ")).
Proof.
  split.
  - apply (proj1 (C6_text_tail_fields
                    (mkElement "testcase" [("name", "t")] (Some " hi ") (Some "  ") []))).
    split; simpl; [intros [H|[]]; discriminate H|intros c []].
  - apply (proj2 (C6_text_tail_fields
                    (mkElement "testcase" [("name", "t")] (Some " hi ") (Some "  ") []))).
    split; simpl; [intros [H|[]]; discriminate H|intros c []].
Defined.

Lemma last_child_Some_split (k : string) (cs : list Element) (c : Element) :
  last_child k cs = Some c ->
  exists l1 l2, cs = l1 ++ c :: l2 /\ tag c = k
                /\ forall c', In c' l2 -> tag c' <> k.
Proof.
  revert c. induction cs as [|c0 r IH]; intros c; simpl; [discriminate|].
  destruct (last_child k r) as [c'|] eqn:E.
  - intros H; inversion H; subst c'.
    destruct (IH c eq_refl) as (l1 & l2 & -> & Ht & Hl).
    exists (c0 :: l1), l2. auto.
  - destruct (String.eqb (tag c0) k) eqn:E0; [|discriminate].
    apply String.eqb_eq in E0. intros H; inversion H; subst c0.
    exists [], r. repeat split; [assumption|]. now apply last_child_None.
Qed.

(** C7. For every child [c0] of [e], the record of [e] has exactly one
    field called [tag c0], and that field holds the record of the last
    child with that tag: the children before it with the same tag are
    lost. *)
Theorem C7_one_field_per_child_tag (e : Element) (c0 : Element) :
  In c0 (children e) ->
  count_occ string_dec (keys (process_xml_element e)) (tag c0) = 1%nat
  /\ exists l1 c l2,
       children e = l1 ++ c :: l2
       /\ tag c = tag c0
       /\ (forall c', In c' l2 -> tag c' <> tag c0)
       /\ dict_get (process_xml_element e) (tag c0)
          = Some (VDict (process_xml_element c)).
Proof.
  intros Hin.
  destruct (last_child (tag c0) (children e)) as [c|] eqn:E.
  - assert (Hget : dict_get (process_xml_element e) (tag c0)
                   = Some (VDict (process_xml_element c)))
      by now rewrite process_xml_element_get, E.
    split.
    + apply (proj1 (NoDup_count_occ' string_dec _) (NoDup_keys_process_xml_element e)).
      apply dict_get_In. congruence.
    + destruct (last_child_Some_split _ _ _ E) as (l1 & l2 & Hch & Ht & Hl).
      exists l1, c, l2. auto.
  - exfalso. exact (proj1 (last_child_None _ _) E c0 Hin eq_refl).
Qed.

Lemma C7_one_field_per_child_tag_witness :
  count_occ string_dec (keys (process_xml_element two_results)) "result" = 1%nat
  /\ exists l1 c l2,
       children two_results = l1 ++ c :: l2
       /\ tag c = "result"
       /\ (forall c', In c' l2 -> tag c' <> "result")
       /\ dict_get (process_xml_element two_results) "result"
          = Some (VDict (process_xml_element c)).
Proof.
  apply (C7_one_field_per_child_tag two_results
           (mkElement "result" [("n", "first")] None None [])).
  simpl. now left.
Defined.

(** In [two_results] the field [result] holds the second of the two. *)
Lemma two_results_last_wins :
  dict_get (process_xml_element two_results) "result"
  = Some (VDict [("n", VStr "last")]).
Proof. reflexivity. Qed.

(** C9. Let a child [c0] of [e] have the tag ["text"] while the inner text
    is stored, the tag ["tail"] while the trailing text is stored, or the
    name of an attribute as its tag. Before the children are added, the
    record has a field of that name, which is no dictionary; in the result
    that field holds the record of a child, the last one with that tag. *)
Theorem C9_child_wins_name_collision (e : Element) (c0 : Element) :
  In c0 (children e) ->
  (tag c0 = "text" /\ present (text e))
  \/ (tag c0 = "tail" /\ present (tail e))
  \/ In (tag c0) (keys (attrib e)) ->
  (exists v, dict_get (own_fields e) (tag c0) = Some v
             /\ forall d, v <> VDict d)
  /\ exists l1 c l2,
       children e = l1 ++ c :: l2
       /\ tag c = tag c0
       /\ (forall c', In c' l2 -> tag c' <> tag c0)
       /\ dict_get (process_xml_element e) (tag c0)
          = Some (VDict (process_xml_element c)).
Proof.
  intros Hin Hcol. split.
  - destruct (dict_get (own_fields e) (tag c0)) as [v|] eqn:E.
    + exists v. split; [reflexivity|]. intros d ->.
      exact (own_fields_no_dict e (tag c0) _ E).
    + exfalso. rewrite own_fields_get in E.
      destruct Hcol as [[Ht Hp]|[[Ht Hp]|Ha]].
      * apply nonblank_present in Hp. rewrite Ht in E. simpl in E.
        rewrite Hp in E. destruct (text e); [discriminate E|discriminate Hp].
      * apply nonblank_present in Hp. rewrite Ht in E. simpl in E.
        rewrite Hp in E. destruct (tail e); [discriminate E|discriminate Hp].
      * apply attribute_get_Some in Ha.
        destruct (String.eqb "tail" (tag c0) && nonblank (tail e)) eqn:E1.
        { apply andb_true_iff in E1. destruct E1 as [_ E1].
          destruct (tail e); discriminate. }
        destruct (String.eqb "text" (tag c0) && nonblank (text e)) eqn:E2.
        { apply andb_true_iff in E2. destruct E2 as [_ E2].
          destruct (text e); discriminate. }
        destruct (dict_get _ (tag c0)); [discriminate|congruence].
  - destruct (last_child (tag c0) (children e)) as [c|] eqn:E.
    + destruct (last_child_Some_split _ _ _ E) as (l1 & l2 & Hch & Ht & Hl).
      exists l1, c, l2. repeat split; try assumption.
      now rewrite process_xml_element_get, E.
    + exfalso. exact (proj1 (last_child_None _ _) E c0 Hin eq_refl).
Qed.

Lemma C9_child_wins_name_collision_witness :
  (exists v, dict_get (own_fields named_children) "name" = Some v
             /\ forall d, v <> VDict d)
  /\ exists l1 c l2,
       children named_children = l1 ++ c :: l2
       /\ tag c = "name"
       /\ (forall c', In c' l2 -> tag c' <> "name")
       /\ dict_get (process_xml_element named_children) "name"
          = Some (VDict (process_xml_element c)).
Proof.
  apply (C9_child_wins_name_collision named_children
           (mkElement "name" [] None None [])).
  - simpl. now left.
  - right. right. simpl. now left.
Defined.

(** In [named_children] the attribute [name] and the inner text give way to
    the children of those names. *)
Lemma named_children_record :
  process_xml_element named_children
  = [("name", VDict []); ("text", VDict [("k", VStr "v")])].
Proof. reflexivity. Qed.

(** C10. When the inner text of [e] is stored, the [text] field is set to
    the text as it is, whitespace at its ends included, and keeps that value
    in the result unless a child is called [text]; the same for the trailing
    text and [tail]. *)
Theorem C10_text_and_tail_stored_unmodified (e : Element) (t : string) :
  (text e = Some t -> present (text e) ->
   dict_get (own_fields e) "text" = Some (VStr t)
   /\ ((forall c, In c (children e) -> tag c <> "text") ->
       dict_get (process_xml_element e) "text" = Some (VStr t)))
  /\ (tail e = Some t -> present (tail e) ->
      dict_get (own_fields e) "tail" = Some (VStr t)
      /\ ((forall c, In c (children e) -> tag c <> "tail") ->
          dict_get (process_xml_element e) "tail" = Some (VStr t))).
Proof.
  split; intros Ht Hp; apply nonblank_present in Hp.
  - assert (H : dict_get (own_fields e) "text" = Some (VStr t))
      by (rewrite own_fields_get; simpl; now rewrite Hp, Ht).
    split; [exact H|]. intros Hc. apply last_child_None in Hc.
    now rewrite process_xml_element_get, Hc.
  - assert (H : dict_get (own_fields e) "tail" = Some (VStr t))
      by (rewrite own_fields_get; simpl; now rewrite Hp, Ht).
    split; [exact H|]. intros Hc. apply last_child_None in Hc.
    now rewrite process_xml_element_get, Hc.
Qed.

Lemma present_padded_text : present (Some "  my_inner_text ").
Proof. apply nonblank_present. reflexivity. Defined.

Lemma present_padded_tail : present (Some " my_tail").
Proof. apply nonblank_present. reflexivity. Defined.

Lemma C10_text_and_tail_stored_unmodified_witness :
  dict_get (process_xml_element padded_text) "text" = Some (VStr "  my_inner_text ")
  /\ dict_get (process_xml_element padded_text) "tail" = Some (VStr " my_tail").
Proof.
  split.
  - apply (proj1 (C10_text_and_tail_stored_unmodified padded_text "  my_inner_text ")
             eq_refl present_padded_text).
    intros c [].
  - apply (proj2 (C10_text_and_tail_stored_unmodified padded_text " my_tail")
             eq_refl present_padded_tail).
    intros c [].
Defined.

(** ** Claims on [parse_xml_report] *)

(** C8. When the job id is read from the path, [parse_xml_report] returns
    one record for every element that [iter] yields, and in each of them
    the three metadata fields hold the given run id, the given run attempt
    and the job id of the path, whatever the element itself has under
    those names. *)
Theorem C8_injected_metadata_wins
    (t seg : string) (rest : Path) (root : Element)
    (workflow_id workflow_run_attempt job_id : Z) :
  py_int (snd (rpartition "_" seg)) = Some job_id ->
  exists records,
    parse_xml_report t (seg :: rest) (Ok root) workflow_id workflow_run_attempt
    = Ok records
    /\ List.length records = List.length (iter t root)
    /\ forall r, In r records ->
         dict_get r "workflow_id" = Some (VInt workflow_id)
         /\ dict_get r "workflow_run_attempt" = Some (VInt workflow_run_attempt)
         /\ dict_get r "job_id" = Some (VInt job_id).
Proof.
  intros Hjob. unfold parse_xml_report, job_id_of. rewrite Hjob.
  eexists. split; [reflexivity|]. split; [apply length_map|].
  intros r Hr. apply in_map_iff in Hr. destruct Hr as (el & <- & _).
  rewrite !dict_get_set. simpl. repeat split.
Qed.

Lemma C8_injected_metadata_wins_witness :
  exists records,
    parse_xml_report "testcase" ["reports_42"; "TEST-a.xml"] (Ok shadowing_document) 7 2
    = Ok records
    /\ List.length records = List.length (iter "testcase" shadowing_document)
    /\ forall r, In r records ->
         dict_get r "workflow_id" = Some (VInt 7)
         /\ dict_get r "workflow_run_attempt" = Some (VInt 2)
         /\ dict_get r "job_id" = Some (VInt 42).
Proof.
  apply (C8_injected_metadata_wins "testcase" "reports_42" ["TEST-a.xml"]
           shadowing_document 7 2 42).
  reflexivity.
Defined.

Lemma trailing_int_false (seg : string) :
  trailing_int seg = false -> no_trailing_int seg.
Proof.
  intros H p. revert seg H.
  induction p as [|c p IH]; intros seg H i E; subst seg; simpl in H;
    apply orb_false_iff in H; destruct H as [H1 H2].
  - now destruct (py_int i).
  - exact (IH _ H2 i eq_refl).
Qed.

(** C3 fails for a first segment that is an integer with no underscore:
    [rpartition] then gives the whole segment, and the job id is read from
    it. *)
Lemma C3_counterexample : ~ fails_without_trailing_int "12345".
Proof.
  intros H.
  specialize (H (trailing_int_false "12345" eq_refl)
                "testcase" ["TEST-a.xml"] (Ok sample_document) 1 1).
  vm_compute in H. discriminate H.
Qed.

(** C3 (amended). When the first segment of the path does not end in an
    underscore followed by an integer, and is not an integer as a whole
    either, [parse_xml_report] fails with [ValueError], whatever the
    document. *)
Theorem C3_unparsable_job_id_fails
    (t seg : string) (rest : Path) (document : result Element)
    (workflow_id workflow_run_attempt : Z) :
  no_trailing_int seg ->
  py_int seg = None ->
  parse_xml_report t (seg :: rest) document workflow_id workflow_run_attempt
  = Raise ValueError.
Proof.
  intros Hno Hwhole. unfold parse_xml_report, job_id_of, rpartition.
  destruct (rsplit1 "_" seg) as [[b a]|] eqn:E; simpl.
  - apply rsplit1_app in E. now rewrite (Hno b a E).
  - now rewrite Hwhole.
Qed.

Lemma C3_unparsable_job_id_fails_witness :
  parse_xml_report "testcase" ["unzipped_test_reports"; "TEST-a.xml"]
                   (Ok sample_document) 1 1
  = Raise ValueError.
Proof.
  apply (C3_unparsable_job_id_fails "testcase" "unzipped_test_reports").
  - apply trailing_int_false. reflexivity.
  - reflexivity.
Defined.

(** ** Claims on the retrieval *)

Lemma add_log_nil (w : world) : add_log [] w = w.
Proof. destruct w. unfold add_log. simpl. now rewrite app_nil_r. Qed.

Lemma add_log_app (a b : list event) (w : world) :
  add_log b (add_log a w) = add_log (a ++ b) w.
Proof. unfold add_log. simpl. now rewrite app_assoc. Qed.

Lemma retrieve_object_ok (s : bool) (obj : S3Object) (w : world) :
  retrievable obj ->
  exists w', retrieve_object s obj w = (Ok true, w')
             /\ log w' = log w ++ retrieval obj.
Proof.
  intros [members Hb].
  unfold retrieve_object, retrieval, bind, print, emit, s3_get, write_file, unzip, ret.
  rewrite Hb. cbn [add_log files log environ http bucket dirs].
  rewrite dict_get_set_same. eexists. split; [reflexivity|].
  cbn [log]. now rewrite <- !app_assoc.
Qed.

Lemma retrieve_object_result (s : bool) (obj : S3Object) (w : world) :
  match fst (retrieve_object s obj w) with
  | Ok b => b = true
  | Raise e => e <> RuntimeError no_reports
  end.
Proof.
  unfold retrieve_object, bind, print, emit, s3_get, write_file, unzip, ret, raise.
  destruct (body obj) as [[members|content]|];
    cbn [add_log files log environ http bucket dirs fst];
    rewrite ?dict_get_set_same; cbn [fst]; try reflexivity; discriminate.
Qed.

Lemma for_in_retrieve_ok (objs : list S3Object) :
  forall (s : bool) (w : world),
    Forall retrievable objs ->
    exists w',
      for_in objs s retrieve_object w
      = (Ok (match objs with [] => s | _ :: _ => true end), w')
      /\ log w' = log w ++ flat_map retrieval objs.
Proof.
  induction objs as [|obj r IH]; intros s w H.
  - exists w. split; [reflexivity|]. simpl. now rewrite app_nil_r.
  - inversion H as [|? ? Hobj Hr]; subst.
    destruct (retrieve_object_ok s obj w Hobj) as (w1 & E1 & L1).
    destruct (IH true w1 Hr) as (w2 & E2 & L2).
    exists w2. split.
    + cbn [for_in]. unfold bind at 1. rewrite E1, E2. now destruct r.
    + rewrite L2, L1. cbn [flat_map]. now rewrite app_assoc.
Qed.

Lemma for_in_retrieve_result (objs : list S3Object) :
  forall (s : bool) (w : world),
    match fst (for_in objs s retrieve_object w) with
    | Ok b => b = match objs with [] => s | _ :: _ => true end
    | Raise e => objs <> [] /\ e <> RuntimeError no_reports
    end.
Proof.
  induction objs as [|obj r IH]; intros s w.
  - reflexivity.
  - cbn [for_in]. unfold bind at 1.
    pose proof (retrieve_object_result s obj w) as H1.
    destruct (retrieve_object s obj w) as [[b|e] w1]; cbn [fst] in *.
    + subst b. specialize (IH true w1).
      destruct (fst (for_in r true retrieve_object w1)) as [b|e].
      * rewrite IH. now destruct r.
      * split; [discriminate|apply IH].
    + split; [discriminate|exact H1].
Qed.

Lemma split_cons (sep : ascii) (s : string) :
  exists w ws, split sep s = w :: ws.
Proof.
  destruct s as [|c r]; simpl; [now eexists; eexists|].
  destruct (Ascii.eqb c sep); [now eexists; eexists|].
  destruct (split sep r); now eexists; eexists.
Qed.

Lemma last_In {A} (l : list A) (d : A) : l <> [] -> In (last l d) l.
Proof.
  induction l as [|x [|y r] IH]; intros H; [congruence|now left|].
  right. apply IH. discriminate.
Qed.

(** An object under the prefix has a name: the file written for it is a
    file of the working directory. *)
Lemma found_object_has_name
    (workflow_run_id workflow_run_attempt : Z) (w : world) (obj : S3Object) :
  In obj (found_objects workflow_run_id workflow_run_attempt w) ->
  path_name (key obj) <> EmptyString.
Proof.
  unfold found_objects, objects_filter. rewrite filter_In. intros [_ H].
  unfold startswith, s3_prefix in H.
  destruct (key obj) as [|c r]; cbn [String.prefix append] in H; [discriminate|].
  destruct (ascii_dec "p" c) as [<-|]; [clear H|discriminate].
  unfold path_name.
  set (keep := fun part => negb (String.eqb part EmptyString)
                          && negb (String.eqb part ".")).
  assert (Hne : filter keep (split "/" (String "p" r)) <> []).
  { simpl. destruct (split_cons "/" r) as (w0 & ws & ->). simpl. discriminate. }
  intros E. pose proof (last_In _ EmptyString Hne) as Hin. rewrite E in Hin.
  apply filter_In in Hin. destruct Hin as [_ Hin]. discriminate Hin.
Qed.

(** A downloaded file that is no zip archive makes [unzip] raise. *)
Lemma unzip_not_an_archive (p content : string) (w : world) :
  dict_get (files w) p = Some (Raw content) ->
  unzip p w = (Raise BadZipFile, w).
Proof. intros H. unfold unzip. now rewrite H. Qed.

(** The error of [download_and_extract_s3_reports] itself is raised exactly
    when the listing is empty. *)
Lemma no_reports_error_iff (workflow_run_id workflow_run_attempt : Z) (w : world) :
  fst (download_and_extract_s3_reports workflow_run_id workflow_run_attempt w)
  = Raise (RuntimeError no_reports)
  <-> found_objects workflow_run_id workflow_run_attempt w = [].
Proof.
  unfold download_and_extract_s3_reports, found_objects.
  set (objs := objects_filter _ w). unfold bind.
  pose proof (for_in_retrieve_result objs false w) as H.
  destruct (for_in objs false retrieve_object w) as [[b|e] w1]; cbn [fst] in *.
  - subst b. destruct objs; cbn; split; congruence.
  - destruct H as [H1 H2]. split; [congruence|contradiction].
Qed.

(** C4 fails when an object is listed and reading it fails, and when an
    object is listed that is no zip archive: the error of [obj.get()], or
    the one of [zipfile.ZipFile], leaves the loop although an object was
    found. *)
Lemma C4_counterexample :
  ~ raises_exactly_when_none_found 12 1 unreadable_object
  /\ ~ raises_exactly_when_none_found 12 1 not_an_archive.
Proof.
  split; intros [[H _] _].
  - assert (E : found_objects 12 1 unreadable_object = []).
    { apply H. exists ClientError. reflexivity. }
    vm_compute in E. discriminate E.
  - assert (E : found_objects 12 1 not_an_archive = []).
    { apply H. exists BadZipFile. reflexivity. }
    vm_compute in E. discriminate E.
Qed.

(** C4 (amended). [download_and_extract_s3_reports] raises its own error,
    the [RuntimeError] on missing reports, exactly when the listing under
    the prefix of the run id and attempt is empty. When every object found
    can be read and is a zip archive, it raises an error exactly when the
    listing is empty, and otherwise returns after downloading and extracting
    every object found, in the order of the listing. *)
Theorem C4_error_exactly_when_none_found
    (workflow_run_id workflow_run_attempt : Z) (w : world) :
  let found := found_objects workflow_run_id workflow_run_attempt w in
  let r := download_and_extract_s3_reports workflow_run_id workflow_run_attempt w in
  (fst r = Raise (RuntimeError no_reports) <-> found = [])
  /\ (Forall retrievable found ->
      (raises (fst r) <-> found = [])
      /\ (found <> [] ->
          fst r = Ok tt /\ log (snd r) = log w ++ flat_map retrieval found)).
Proof.
  intros found r. split; [apply no_reports_error_iff|].
  intros Hgood.
  assert (Hne : found <> [] ->
                fst r = Ok tt /\ log (snd r) = log w ++ flat_map retrieval found).
  { intros Hf. subst r. unfold download_and_extract_s3_reports.
    fold (found_objects workflow_run_id workflow_run_attempt w). fold found.
    destruct (for_in_retrieve_ok found false w Hgood) as (w1 & E1 & L1).
    unfold bind. rewrite E1. destruct found; [congruence|].
    split; [reflexivity|exact L1]. }
  split; [|exact Hne]. split.
  - intros [e He]. destruct found; [reflexivity|].
    destruct Hne as [Hok _]; [discriminate|]. congruence.
  - intros Hf. exists (RuntimeError no_reports).
    now apply no_reports_error_iff.
Qed.

Lemma two_reports_retrievable : Forall retrievable (found_objects 12 1 two_reports).
Proof. repeat constructor; eexists; reflexivity. Defined.

Lemma C4_error_exactly_when_none_found_witness :
  fst (download_and_extract_s3_reports 12 1 two_reports) = Ok tt
  /\ log (snd (download_and_extract_s3_reports 12 1 two_reports))
     = [Printed "Downloading and extracting test-reports-foo_77.zip";
        Written "test-reports-foo_77.zip" (Archive [("test/TEST-a.xml", "<testsuite/>")]);
        Extracted "test-reports-foo_77.zip" "unzipped-test-reports-foo_77";
        Printed "Downloading and extracting test-reports-bar_79.zip";
        Written "test-reports-bar_79.zip" (Archive []);
        Extracted "test-reports-bar_79.zip" "unzipped-test-reports-bar_79"].
Proof.
  apply (proj2 (proj2 (C4_error_exactly_when_none_found 12 1 two_reports)
                      two_reports_retrievable)).
  discriminate.
Defined.

Lemma tokens_well_formedb_true (atoms : list string) :
  tokens_well_formedb atoms = true -> tokens_well_formed atoms.
Proof.
  unfold tokens_well_formedb, tokens_well_formed. rewrite forallb_forall.
  intros H atom Hin Hs. specialize (H atom Hin). rewrite Hs in H. simpl in H.
  now destruct (py_int _).
Qed.

(** With well-formed tokens the loop over the atoms only prints. *)
Lemma for_in_check_atom (artifact_name : string) (workflow_run_attempt : Z)
    (atoms : list string) :
  forall w : world,
    tokens_well_formed atoms ->
    for_in atoms tt (check_atom artifact_name workflow_run_attempt) w
    = (Ok tt, add_log (skip_events_of artifact_name workflow_run_attempt atoms) w).
Proof.
  induction atoms as [|atom r IH]; intros w Hwf.
  - cbn. now rewrite add_log_nil.
  - assert (Hr : tokens_well_formed r)
      by (intros a Ha; apply Hwf; now right).
    assert (Ha := Hwf atom (or_introl eq_refl)).
    cbn [for_in skip_events_of flat_map]. unfold bind at 1.
    unfold check_atom at 1.
    destruct (startswith "runattempt" atom).
    + destruct (py_int (drop (String.length "runattempt") atom)) as [n|];
        [|now contradiction Ha].
      unfold bind, int_or_raise, ret.
      destruct (negb (workflow_run_attempt =? n)).
      * unfold print, emit. rewrite IH by assumption. now rewrite add_log_app.
      * unfold ret. rewrite IH by assumption. reflexivity.
    + unfold ret. rewrite IH by assumption. reflexivity.
Qed.

Lemma skip_events_of_In (artifact_name : string) (workflow_run_attempt n : Z)
    (atoms : list string) (atom : string) :
  In atom atoms ->
  startswith "runattempt" atom = true ->
  py_int (drop (String.length "runattempt") atom) = Some n ->
  n <> workflow_run_attempt ->
  In (Printed (skip_message artifact_name workflow_run_attempt n))
     (skip_events_of artifact_name workflow_run_attempt atoms).
Proof.
  intros Hin Hs Hn Hne. unfold skip_events_of. apply in_flat_map.
  exists atom. split; [assumption|]. rewrite Hs, Hn.
  assert (E : (workflow_run_attempt =? n) = false) by (apply Z.eqb_neq; congruence).
  rewrite E. now left.
Qed.

(** C5 fails for a name with a second token that starts with [runattempt]
    and does not go on with an integer: [int] raises [ValueError] in the
    loop and nothing is downloaded. *)
Lemma C5_counterexample :
  ~ mismatch_is_only_logged "test-reports-runattempt2-runattemptx" "url" 1 github.
Proof.
  intros H.
  destruct (H "runattempt2" 2) as (_ & _ & E).
  - split; [|split]; [|reflexivity|reflexivity]. vm_compute. auto.
  - discriminate.
  - vm_compute in E. discriminate E.
Qed.

(** C5 (amended). Let the name have a token [runattempt<n>] with [n]
    different from the requested attempt, and let every atom that starts
    with [runattempt] go on with an integer. Then the loop only prints,
    the message on the mismatch included, and the call goes on to the
    download and the extraction: its result and its effects are those of
    the code after the loop, run once the messages are printed. *)
Theorem C5_mismatch_does_not_skip
    (artifact_name artifact_url atom : string) (workflow_run_attempt n : Z)
    (w : world) :
  tokens_well_formed (split "-" artifact_name) ->
  run_attempt_token artifact_name atom n ->
  n <> workflow_run_attempt ->
  check_run_attempt artifact_name workflow_run_attempt w
  = (Ok tt, add_log (skip_events artifact_name workflow_run_attempt) w)
  /\ In (Printed (skip_message artifact_name workflow_run_attempt n))
        (skip_events artifact_name workflow_run_attempt)
  /\ download_and_extract_artifact artifact_name artifact_url workflow_run_attempt w
     = fetch_and_unzip artifact_name artifact_url
         (add_log (skip_events artifact_name workflow_run_attempt) w).
Proof.
  intros Hwf (Hin & Hs & Hn) Hne.
  assert (Hloop : check_run_attempt artifact_name workflow_run_attempt w
                  = (Ok tt, add_log (skip_events artifact_name workflow_run_attempt) w))
    by (unfold check_run_attempt; now rewrite for_in_check_atom).
  split; [exact Hloop|]. split.
  - now apply (skip_events_of_In _ _ n _ atom).
  - unfold download_and_extract_artifact, bind at 1. now rewrite Hloop.
Qed.

Lemma C5_mismatch_does_not_skip_witness :
  check_run_attempt "test-reports-runattempt2-linux" 1 github
  = (Ok tt, add_log (skip_events "test-reports-runattempt2-linux" 1) github)
  /\ In (Printed (skip_message "test-reports-runattempt2-linux" 1 2))
     (skip_events "test-reports-runattempt2-linux" 1)
  /\ download_and_extract_artifact "test-reports-runattempt2-linux" "url" 1 github
     = fetch_and_unzip "test-reports-runattempt2-linux" "url"
         (add_log (skip_events "test-reports-runattempt2-linux" 1) github).
Proof.
  apply (C5_mismatch_does_not_skip "test-reports-runattempt2-linux" "url"
           "runattempt2" 1 2 github).
  - apply tokens_well_formedb_true. reflexivity.
  - split; [|split]; [|reflexivity|reflexivity]. vm_compute. auto.
  - discriminate.
Defined.

(** The download and the extraction do happen in that run. *)
Lemma mismatched_artifact_is_extracted :
  let r := download_and_extract_artifact "test-reports-runattempt2-linux" "url" 1 github in
  fst r = Ok tt
  /\ dict_get (dirs (snd r)) "unzipped-test-reports-runattempt2-linux"
     = Some [("test/TEST-a.xml", "<testsuite/>")].
Proof. split; reflexivity. Qed.

(** * Further properties *)

(** ** Decimal numerals *)

Lemma lstrip_by_id (sp : ascii -> bool) (cs : list ascii) :
  (forall c, In c cs -> sp c = false) -> lstrip_by sp cs = cs.
Proof.
  destruct cs as [|c r]; intros H; [reflexivity|].
  simpl. now rewrite (H c (or_introl eq_refl)).
Qed.

Lemma strip_by_id (sp : ascii -> bool) (cs : list ascii) :
  (forall c, In c cs -> sp c = false) -> strip_by sp cs = cs.
Proof.
  intros H. unfold strip_by. rewrite (lstrip_by_id sp cs H).
  rewrite lstrip_by_id; [apply rev_involutive|].
  intros c Hc. apply H. now apply in_rev.
Qed.

(** The characters of a numeral: digits. *)
Lemma string_of_uint_digits (d : Decimal.uint) (c : ascii) :
  In c (chars (NilEmpty.string_of_uint d)) -> is_digit c = true.
Proof.
  induction d; simpl; try tauto; intros [<-|H]; auto.
Qed.

Lemma digits_tail_pos (d : Decimal.uint) :
  forall (p : positive) (n : nat),
    exists m, digits_tail (Z.pos p) n (chars (NilEmpty.string_of_uint d))
              = (Z.pos (Pos.of_uint_acc d p), m, []).
Proof.
  induction d as [|d IH|d IH|d IH|d IH|d IH|d IH|d IH|d IH|d IH|d IH];
    intros p n;
    [now exists n| | | | | | | | | | ];
    cbn [NilEmpty.string_of_uint chars list_ascii_of_string digits_tail Pos.of_uint_acc];
    match goal with
    | |- context [is_digit ?c] => change (is_digit c) with true; cbv iota
    end;
    match goal with
    | |- context [digit_val ?c] =>
        let v := eval vm_compute in (digit_val c) in change (digit_val c) with v
    end;
    match goal with
    | |- context [digits_tail ?a (S n) _] =>
        match goal with
        | |- context [Pos.of_uint_acc d ?q] =>
            replace a with (Z.pos q) by lia
        end
    end;
    apply IH.
Qed.

Lemma digits_tail_zero (d : Decimal.uint) :
  forall n : nat,
    exists m, digits_tail 0 n (chars (NilEmpty.string_of_uint d))
              = (Z.of_N (Pos.of_uint d), m, []).
Proof.
  induction d as [|d IH|d IH|d IH|d IH|d IH|d IH|d IH|d IH|d IH|d IH];
    intros n;
    [now exists n|exact (IH (S n))| | | | | | | | | ];
    cbn [NilEmpty.string_of_uint chars list_ascii_of_string digits_tail Pos.of_uint
         Z.of_N];
    match goal with
    | |- context [is_digit ?c] => change (is_digit c) with true; cbv iota
    end;
    match goal with
    | |- context [digit_val ?c] =>
        let v := eval vm_compute in (digit_val c) in change (digit_val c) with v
    end;
    match goal with
    | |- context [digits_tail ?a (S n) _] =>
        match goal with
        | |- context [Pos.of_uint_acc d ?q] =>
            change a with (Z.pos q)
        end
    end;
    apply digits_tail_pos.
Qed.

Lemma digitpart_uint (d : Decimal.uint) :
  d <> Decimal.Nil ->
  exists m, digitpart (chars (NilEmpty.string_of_uint d))
            = Some (Z.of_uint d, m, []).
Proof.
  intros Hd. unfold Z.of_uint.
  destruct d as [|d|d|d|d|d|d|d|d|d|d]; [congruence| | | | | | | | | | ];
    cbn [NilEmpty.string_of_uint chars list_ascii_of_string digitpart Pos.of_uint
         Z.of_N];
    match goal with
    | |- context [is_digit ?c] => change (is_digit c) with true; cbv iota
    end.
  - destruct (digits_tail_zero d 1) as [m E]. exists m.
    change (digit_val "0") with 0. exact (f_equal Some E).
  - destruct (digits_tail_pos d 1 1) as [m E]. exists m.
    change (digit_val "1") with 1. exact (f_equal Some E).
  - destruct (digits_tail_pos d 2 1) as [m E]. exists m.
    change (digit_val "2") with 2. exact (f_equal Some E).
  - destruct (digits_tail_pos d 3 1) as [m E]. exists m.
    change (digit_val "3") with 3. exact (f_equal Some E).
  - destruct (digits_tail_pos d 4 1) as [m E]. exists m.
    change (digit_val "4") with 4. exact (f_equal Some E).
  - destruct (digits_tail_pos d 5 1) as [m E]. exists m.
    change (digit_val "5") with 5. exact (f_equal Some E).
  - destruct (digits_tail_pos d 6 1) as [m E]. exists m.
    change (digit_val "6") with 6. exact (f_equal Some E).
  - destruct (digits_tail_pos d 7 1) as [m E]. exists m.
    change (digit_val "7") with 7. exact (f_equal Some E).
  - destruct (digits_tail_pos d 8 1) as [m E]. exists m.
    change (digit_val "8") with 8. exact (f_equal Some E).
  - destruct (digits_tail_pos d 9 1) as [m E]. exists m.
    change (digit_val "9") with 9. exact (f_equal Some E).
Qed.

Lemma take_sign_digit (c : ascii) (r : list ascii) :
  is_digit c = true -> take_sign (c :: r) = (false, c :: r).
Proof.
  intros H. unfold take_sign.
  destruct c as [[] [] [] [] [] [] [] []]; try reflexivity; discriminate H.
Qed.

Lemma to_int_cases (n : Z) :
  exists d, d <> Decimal.Nil
            /\ (Z.to_int n = Decimal.Pos d \/ Z.to_int n = Decimal.Neg d).
Proof.
  destruct n as [|p|p]; simpl.
  - exists (Decimal.D0 Decimal.Nil). split; [discriminate|now left].
  - exists (Pos.to_uint p). split; [|now left].
    intros E. pose proof (DecimalPos.Unsigned.of_to p) as H.
    rewrite E in H. discriminate H.
  - exists (Pos.to_uint p). split; [|now right].
    intros E. pose proof (DecimalPos.Unsigned.of_to p) as H.
    rewrite E in H. discriminate H.
Qed.

(** The characters of [str(n)]: digits after an optional minus sign. *)
Lemma of_int_chars (n : Z) (c : ascii) :
  In c (chars (of_int n)) -> is_digit c = true \/ c = "-"%char.
Proof.
  unfold of_int. destruct (Z.to_int n) as [d|d]; simpl.
  - intros H. left. now apply (string_of_uint_digits d).
  - intros [<-|H]; [now right|]. left. now apply (string_of_uint_digits d).
Qed.

Lemma of_int_chars_plain (n : Z) (c : ascii) :
  In c (chars (of_int n)) ->
  (code c <? 128)%N = true /\ Py_ISSPACE c = false.
Proof.
  intros H. apply of_int_chars in H. destruct H as [H| ->]; [|now split].
  destruct c as [[] [] [] [] [] [] [] []]; try discriminate H; now split.
Qed.

(** [int(str(n)) == n] *)
Lemma py_int_of_int (n : Z) : py_int (of_int n) = Some n.
Proof.
  unfold py_int, transform.
  assert (Hascii : forallb (fun c => (code c <? 128)%N) (chars (of_int n)) = true).
  { apply forallb_forall. intros c Hc. now apply (of_int_chars_plain n). }
  rewrite Hascii, strip_by_id by (intros c Hc; now apply (of_int_chars_plain n)).
  pose proof (DecimalZ.of_to n) as Hn.
  destruct (to_int_cases n) as (d & Hd & [E|E]); unfold of_int; rewrite E in *;
    destruct (digitpart_uint d Hd) as [m Hm]; simpl in Hn.
  - cbn [NilEmpty.string_of_int]. unfold int_body.
    destruct (chars (NilEmpty.string_of_uint d)) as [|c r] eqn:Ec;
      [discriminate Hm|].
    rewrite take_sign_digit.
    + rewrite Hm. now rewrite Hn.
    + apply (string_of_uint_digits d). rewrite Ec. now left.
  - cbn [NilEmpty.string_of_int chars list_ascii_of_string].
    unfold int_body. cbn [take_sign]. fold (chars (NilEmpty.string_of_uint d)).
    rewrite Hm. now rewrite Hn.
Qed.

Lemma of_int_inj (a b : Z) : of_int a = of_int b -> a = b.
Proof.
  intros H. pose proof (py_int_of_int a) as Ha. rewrite H, py_int_of_int in Ha.
  congruence.
Qed.

(** ** More on strings *)



Lemma of_int_without (sep : ascii) (n : Z) :
  is_digit sep = false -> sep <> "-"%char ->
  forall c, In c (chars (of_int n)) -> c <> sep.
Proof.
  intros Hd Hm c Hc ->. apply of_int_chars in Hc. destruct Hc; congruence.
Qed.

(** ** More on the records *)

Lemma dict_get_dict_update {V} (other : dict V) :
  forall (d : dict V) (k : string) (v : V),
    NoDup (keys other) -> In (k, v) other ->
    dict_get (dict_update d other) k = Some v.
Proof.
  unfold dict_update.
  induction other as [|[k0 v0] r IH]; intros d k v ND Hin; [destruct Hin|].
  simpl in ND. inversion ND as [|? ? Hnotin ND']; subst. simpl.
  destruct Hin as [E|Hin].
  - inversion E; subst k0 v0. clear IH.
    assert (H : forall d', dict_get d' k = Some v ->
                           dict_get (fold_left (fun d kv => dict_set d (fst kv) (snd kv)) r d') k
                           = Some v).
    { revert Hnotin. clear. induction r as [|[k1 v1] r IH]; intros Hnotin d' Hd';
        [exact Hd'|]. simpl. apply IH.
      - intros H. apply Hnotin. now right.
      - rewrite dict_get_set. destruct (String.eqb k1 k) eqn:E; [|exact Hd'].
        apply String.eqb_eq in E. subst k1. exfalso. apply Hnotin. now left. }
    apply H, dict_get_set_same.
  - now apply IH.
Qed.

Lemma with_metadata_get (workflow_id workflow_run_attempt job_id : Z)
    (el : Element) (k : string) :
  dict_get (with_metadata workflow_id workflow_run_attempt job_id el) k
  = if String.eqb "job_id" k then Some (VInt job_id)
    else if String.eqb "workflow_run_attempt" k then Some (VInt workflow_run_attempt)
    else if String.eqb "workflow_id" k then Some (VInt workflow_id)
    else dict_get (process_xml_element el) k.
Proof. unfold with_metadata. now rewrite !dict_get_set. Qed.

Lemma parse_xml_report_Ok (t : string) (report : Path) (root : Element)
    (workflow_id workflow_run_attempt job_id : Z) :
  job_id_of report = Ok job_id ->
  parse_xml_report t report (Ok root) workflow_id workflow_run_attempt
  = Ok (map (with_metadata workflow_id workflow_run_attempt job_id) (iter t root)).
Proof. intros H. unfold parse_xml_report. now rewrite H. Qed.

Lemma parse_xml_report_inv (t : string) (report : Path) (document : result Element)
    (workflow_id workflow_run_attempt : Z) (records : list record) :
  parse_xml_report t report document workflow_id workflow_run_attempt = Ok records ->
  exists root job_id,
    document = Ok root /\ job_id_of report = Ok job_id
    /\ records = map (with_metadata workflow_id workflow_run_attempt job_id)
                     (iter t root).
Proof.
  unfold parse_xml_report. destruct (job_id_of report) as [job_id|]; [|discriminate].
  destruct document as [root|]; [|discriminate].
  intros H. inversion H. now exists root, job_id.
Qed.

Lemma iter_eq (t : string) (e : Element) :
  iter t e = (if String.eqb t "*" || String.eqb (tag e) t then [e] else [])
             ++ flat_map (iter t) (children e).
Proof. destruct e; reflexivity. Qed.

(** An induction principle that reaches the children. *)
Lemma Element_rect_children (P : Element -> Prop) :
  (forall e, (forall c, In c (children e) -> P c) -> P e) ->
  forall e, P e.
Proof.
  intros H.
  fix IH 1. intros [t a tx tl ch]. apply H. simpl.
  induction ch as [|c r IHr]; intros c0 Hc0; [destruct Hc0|].
  destruct Hc0 as [<-|Hc0]; [apply IH|now apply IHr].
Qed.

Lemma inside_trans (a b c : Element) : inside a b -> inside b c -> inside a c.
Proof.
  intros Hab Hbc. induction Hbc as [|parent el _ IH Hin]; [assumption|].
  now apply (inside_child a parent).
Qed.

Lemma iter_inside (t : string) (root : Element) :
  forall el,
    In el (iter t root)
    <-> inside root el /\ (t = "*" \/ tag el = t).
Proof.
  induction root as [root IH] using Element_rect_children.
  intros el. rewrite iter_eq, in_app_iff, in_flat_map. split.
  - intros [H|(c & Hc & H)].
    + destruct (String.eqb t "*" || String.eqb (tag root) t) eqn:E; [|destruct H].
      destruct H as [<-|[]]. split; [constructor|].
      apply orb_true_iff in E. destruct E as [E|E]; apply String.eqb_eq in E; auto.
    + apply (IH c Hc) in H. destruct H as [H1 H2]. split; [|assumption].
      apply (inside_trans root c el); [|assumption].
      now apply (inside_child root root); [constructor|].
  - intros [Hin Ht].
    assert (Hcase : el = root \/ exists c, In c (children root) /\ inside c el).
    { clear Ht IH. induction Hin as [|parent el _ IHp Hc]; [now left|]. right.
      destruct IHp as [->|(c & Hc1 & Hc2)].
      - exists el. split; [assumption|constructor].
      - exists c. split; [assumption|]. now apply (inside_child c parent). }
    destruct Hcase as [->|(c & Hc & Hcin)].
    + left. assert (E : String.eqb t "*" || String.eqb (tag root) t = true).
      { apply orb_true_iff. destruct Ht as [->| <-]; [left|right];
          apply String.eqb_refl. }
      rewrite E. now left.
    + right. exists c. split; [assumption|]. now apply (IH c Hc).
Qed.

(** ** Further properties of the normalisation *)

(** X1. No record that [parse_xml_report] returns has two fields of one
    name, whatever names the element, its children and the metadata
    share. *)
Theorem X1_records_have_unique_keys
    (t : string) (report : Path) (document : result Element)
    (workflow_id workflow_run_attempt : Z) (records : list record) :
  parse_xml_report t report document workflow_id workflow_run_attempt = Ok records ->
  forall r, In r records -> NoDup (keys r).
Proof.
  intros H r Hr. apply parse_xml_report_inv in H.
  destruct H as (root & job_id & _ & _ & ->).
  apply in_map_iff in Hr. destruct Hr as (el & <- & _).
  unfold with_metadata. repeat apply NoDup_keys_dict_set.
  apply NoDup_keys_process_xml_element.
Qed.

Lemma X1_records_have_unique_keys_witness :
  NoDup (keys (with_metadata 7 2 42 shadowing_document)).
Proof.
  apply (X1_records_have_unique_keys "testcase" ["reports_42"; "TEST-a.xml"]
           (Ok shadowing_document) 7 2 [with_metadata 7 2 42 shadowing_document]).
  - reflexivity.
  - simpl. now left.
Defined.

(** X2. An attribute whose name is neither [text] nor [tail] nor the tag of
    a child is stored as the float that [float] reads from its value, and
    as its value, unchanged, when [float] rejects it. *)
Theorem X2_attribute_is_float_or_string (e : Element) (k v : string) :
  NoDup (keys (attrib e)) ->
  In (k, v) (attrib e) ->
  k <> "text" -> k <> "tail" ->
  (forall c, In c (children e) -> tag c <> k) ->
  dict_get (process_xml_element e) k
  = Some (match py_float v with
          | Some f => VFloat f
          | None => VStr v
          end).
Proof.
  intros ND Hin Htext Htail Hch. rewrite process_xml_element_get.
  apply last_child_None in Hch.
  rewrite Hch, own_fields_get, (dict_get_dict_update _ [] k v ND Hin).
  apply not_eq_sym, String.eqb_neq in Htext, Htail.
  now rewrite Htext, Htail.
Qed.

Lemma X2_attribute_is_float_or_string_witness :
  dict_get (process_xml_element
              (mkElement "testcase"
                         [("name", "test_foo"); ("time", "1e-3"); ("file", "nan")]
                         None None []))
           "file"
  = Some (VFloat S754_nan).
Proof.
  apply (X2_attribute_is_float_or_string
           (mkElement "testcase"
                      [("name", "test_foo"); ("time", "1e-3"); ("file", "nan")]
                      None None [])
           "file" "nan").
  - repeat constructor; simpl; intuition discriminate.
  - simpl. auto.
  - discriminate.
  - discriminate.
  - intros c [].
Defined.

Lemma In_keys_store_text (ret : record) (k : string) (o : option string) (x : string) :
  In x (keys (store_text ret k o)) <-> (x = k /\ nonblank o = true) \/ In x (keys ret).
Proof.
  unfold store_text, nonblank. destruct o as [t|]; [|intuition discriminate].
  destruct (truthy t && truthy (strip t)).
  - rewrite In_keys_dict_set. tauto.
  - intuition discriminate.
Qed.

Lemma In_keys_coerce (ret : record) (kv : string * string) (x : string) :
  In (fst kv) (keys ret) -> (In x (keys (coerce ret kv)) <-> In x (keys ret)).
Proof.
  destruct kv as [k v]. simpl. intros Hk. unfold coerce.
  destruct (py_int v), (py_float v); rewrite ?In_keys_dict_set;
    intuition (subst; auto).
Qed.

Lemma In_keys_fold_coerce (items : dict string) :
  forall (ret : record) (x : string),
    (forall k, In k (keys items) -> In k (keys ret)) ->
    (In x (keys (fold_left coerce items ret)) <-> In x (keys ret)).
Proof.
  induction items as [|kv r IH]; intros ret x H; [reflexivity|].
  cbn [fold_left].
  assert (Hkv : In (fst kv) (keys ret)) by (apply H; now left).
  rewrite IH.
  - now apply In_keys_coerce.
  - intros k Hk. apply In_keys_coerce; [assumption|]. apply H. now right.
Qed.

Lemma In_keys_own_fields (e : Element) (x : string) :
  In x (keys (own_fields e))
  <-> In x (keys (attrib e))
      \/ (x = "text" /\ nonblank (text e) = true)
      \/ (x = "tail" /\ nonblank (tail e) = true).
Proof.
  unfold own_fields. rewrite !In_keys_store_text, In_keys_fold_coerce.
  - rewrite keys_map_VStr, In_keys_dict_update. simpl. tauto.
  - intros k Hk. now rewrite keys_map_VStr.
Qed.

Lemma In_keys_fold_children (cs : list Element) :
  forall (ret : record) (x : string),
    In x (keys (fold_left add_child cs ret))
    <-> In x (keys ret) \/ In x (map tag cs).
Proof.
  induction cs as [|c r IH]; intros ret x; simpl; [tauto|].
  rewrite IH. unfold add_child. rewrite In_keys_dict_set. intuition.
Qed.

(** X3. The fields of a record are the attributes of the element, [text]
    and [tail] when that text is stored, and the tags of the children:
    nothing else is added and none of these is left out. *)
Theorem X3_fields_of_a_record (e : Element) (k : string) :
  In k (keys (process_xml_element e))
  <-> In k (keys (attrib e))
      \/ (k = "text" /\ present (text e))
      \/ (k = "tail" /\ present (tail e))
      \/ In k (map tag (children e)).
Proof.
  rewrite process_xml_element_eq, In_keys_fold_children, In_keys_own_fields.
  rewrite <- !nonblank_present. tauto.
Qed.

(** X4. When the job id is read from the path, the records of
    [parse_xml_report] are those of the elements with the given tag, the
    root and the elements inside it at any depth; the tag ["*"] takes all
    of them. *)
Theorem X4_one_record_per_tagged_element
    (t : string) (report : Path) (root : Element)
    (workflow_id workflow_run_attempt job_id : Z) (r : record) :
  job_id_of report = Ok job_id ->
  exists records,
    parse_xml_report t report (Ok root) workflow_id workflow_run_attempt = Ok records
    /\ (In r records
        <-> exists el, inside root el /\ (t = "*" \/ tag el = t)
                       /\ r = with_metadata workflow_id workflow_run_attempt job_id el).
Proof.
  intros Hjob.
  exists (map (with_metadata workflow_id workflow_run_attempt job_id) (iter t root)).
  split; [exact (parse_xml_report_Ok _ _ _ _ _ _ Hjob)|].
  rewrite in_map_iff. split.
  - intros (el & <- & Hel). apply iter_inside in Hel. exists el. tauto.
  - intros (el & Hin & Ht & ->). exists el. split; [reflexivity|].
    apply iter_inside. tauto.
Qed.

Lemma X4_one_record_per_tagged_element_witness :
  exists records,
    parse_xml_report "testsuite" ["reports_42"; "TEST-a.xml"] (Ok nested_suites) 7 2
    = Ok records
    /\ (In (with_metadata 7 2 42 (mkElement "testsuite" [("name", "inner")] None None []))
           records
        <-> exists el, inside nested_suites el /\ ("testsuite" = "*" \/ tag el = "testsuite")
                       /\ with_metadata 7 2 42
                            (mkElement "testsuite" [("name", "inner")] None None [])
                          = with_metadata 7 2 42 el).
Proof.
  apply (X4_one_record_per_tagged_element "testsuite" ["reports_42"; "TEST-a.xml"]
           nested_suites 7 2 42).
  reflexivity.
Defined.

(** X5. The records come in the order of the document, and each has,
    under every name but the three of the metadata, what
    [process_xml_element] gives for its element. *)
Theorem X5_metadata_changes_nothing_else
    (t : string) (report : Path) (document : result Element)
    (workflow_id workflow_run_attempt : Z) (records : list record) :
  parse_xml_report t report document workflow_id workflow_run_attempt = Ok records ->
  exists root,
    document = Ok root
    /\ Forall2 (fun el r =>
                  forall k, k <> "workflow_id" -> k <> "workflow_run_attempt" ->
                            k <> "job_id" ->
                            dict_get r k = dict_get (process_xml_element el) k)
               (iter t root) records.
Proof.
  intros H. apply parse_xml_report_inv in H.
  destruct H as (root & job_id & -> & _ & ->). exists root. split; [reflexivity|].
  induction (iter t root) as [|el l IH]; simpl; constructor; [|exact IH].
  intros k H1 H2 H3. rewrite with_metadata_get.
  apply not_eq_sym, String.eqb_neq in H1, H2, H3. now rewrite H1, H2, H3.
Qed.

Lemma X5_metadata_changes_nothing_else_witness :
  exists root,
    Ok shadowing_document = Ok root
    /\ Forall2 (fun el r =>
                  forall k, k <> "workflow_id" -> k <> "workflow_run_attempt" ->
                            k <> "job_id" ->
                            dict_get r k = dict_get (process_xml_element el) k)
               (iter "testcase" root) [with_metadata 7 2 42 shadowing_document].
Proof.
  apply (X5_metadata_changes_nothing_else "testcase" ["reports_42"; "TEST-a.xml"]
           (Ok shadowing_document) 7 2).
  reflexivity.
Defined.


(** ** Further properties of the retrieval *)


Lemma append_assoc (a b c : string) : ((a ++ b) ++ c = a ++ (b ++ c))%string.
Proof. induction a as [|x a IH]; simpl; [reflexivity|]. now rewrite IH. Qed.








Lemma prefix_append (a x : string) : String.prefix a (a ++ x) = true.
Proof.
  induction a as [|c a IH]; simpl; [now destruct x|].
  destruct (ascii_dec c c); [exact IH|congruence].
Qed.

Lemma prefix_separator (sep : ascii) (a : string) :
  forall a' x y : string,
    (forall c, In c (chars a) -> c <> sep) ->
    (forall c, In c (chars a') -> c <> sep) ->
    String.prefix (a ++ String sep x) (a' ++ String sep y) = true ->
    a = a' /\ String.prefix x y = true.
Proof.
  induction a as [|c a IH]; intros [|c' a'] x y Ha Ha' H; simpl in H.
  - destruct (ascii_dec sep sep); [now split|congruence].
  - destruct (ascii_dec sep c') as [E|]; [|discriminate].
    exfalso. exact (Ha' c' (or_introl eq_refl) (eq_sym E)).
  - destruct (ascii_dec c sep) as [E|]; [|discriminate].
    exfalso. exact (Ha c (or_introl eq_refl) E).
  - destruct (ascii_dec c c') as [<-|]; [|discriminate].
    destruct (IH a' x y) as [-> Hp]; auto.
    + intros c0 Hc0. apply Ha. now right.
    + intros c0 Hc0. apply Ha'. now right.
Qed.

Lemma s3_prefix_startswith (a b a' b' : Z) (rest : string) :
  startswith (s3_prefix a b) (s3_prefix a' b' ++ rest) = true
  <-> a = a' /\ b = b'.
Proof.
  split.
  - unfold startswith, s3_prefix. rewrite !append_assoc. simpl. intros H.
    repeat match type of H with
           | (if ascii_dec ?c ?c then _ else _) = _ =>
               destruct (ascii_dec c c); [|congruence]
           end.
    apply prefix_separator in H;
      try (apply of_int_without; [reflexivity|discriminate]).
    destruct H as [Ha H].
    apply prefix_separator in H;
      try (apply of_int_without; [reflexivity|discriminate]).
    destruct H as [Hb _]. split; now apply of_int_inj.
  - intros [<- <-]. apply prefix_append.
Qed.

(** X9. The listing takes an object from the run and the attempt in its
    key: an object whose key goes on from the prefix of the run [a'] and
    the attempt [b'] is found for the run [a] and the attempt [b] exactly
    when [a = a'] and [b = b']. *)
Theorem X9_listing_is_of_one_run_and_attempt
    (a b a' b' : Z) (rest : string) (obj : S3Object) (w : world) :
  In obj (bucket w) ->
  key obj = (s3_prefix a' b' ++ rest)%string ->
  In obj (found_objects a b w) <-> a = a' /\ b = b'.
Proof.
  intros Hin Hkey. unfold found_objects, objects_filter.
  rewrite filter_In, Hkey, s3_prefix_startswith. tauto.
Qed.

Lemma X9_listing_is_of_one_run_and_attempt_witness :
  In (mkS3Object "pytorch/pytorch/12/2/artifact/test-reports-foo_78.zip"
                 (Some (Raw "other attempt")))
     (found_objects 12 20 two_reports)
  <-> 12 = 12 /\ 20 = 2.
Proof.
  apply (X9_listing_is_of_one_run_and_attempt 12 20 12 2 "-foo_78.zip").
  - simpl. auto.
  - reflexivity.
Defined.





Lemma same_but_log_refl (w : world) : same_but_log w w.
Proof. repeat split. Qed.

Lemma related_ret {A} (a : A) : related (ret a) (ret a).
Proof. intros w1 w2 H. now split. Qed.

Lemma related_bind {A B} (m1 m2 : M A) (k1 k2 : A -> M B) :
  related m1 m2 -> (forall a, related (k1 a) (k2 a)) ->
  related (bind m1 k1) (bind m2 k2).
Proof.
  intros Hm Hk w1 w2 H. unfold bind. destruct (Hm w1 w2 H) as [Hr Hw].
  destruct (m1 w1) as [[a1|e1] w1'], (m2 w2) as [[a2|e2] w2']; cbn [fst snd] in *;
    try discriminate Hr; inversion Hr; subst.
  - now apply Hk.
  - now split.
Qed.

Lemma related_for_in {A S} (b1 b2 : S -> A -> M S) (l : list A) :
  (forall s x, related (b1 s x) (b2 s x)) ->
  forall s, related (for_in l s b1) (for_in l s b2).
Proof.
  intros Hb. induction l as [|x r IH]; intros s; cbn [for_in].
  - apply related_ret.
  - apply related_bind; [apply Hb|exact IH].
Qed.

Lemma related_check_atom (artifact_name : string) (a1 a2 : Z) (atom : string) :
  related (check_atom artifact_name a1 tt atom) (check_atom artifact_name a2 tt atom).
Proof.
  unfold check_atom. destruct (startswith "runattempt" atom); [|apply related_ret].
  destruct (py_int (drop (String.length "runattempt") atom)) as [n|].
  - intros w1 w2 H. unfold bind, int_or_raise, ret.
    destruct (negb (a1 =? n)), (negb (a2 =? n)); split; try reflexivity; exact H.
  - intros w1 w2 H. split; [reflexivity|exact H].
Qed.

Lemma related_fetch_and_unzip (artifact_name artifact_url : string) :
  related (fetch_and_unzip artifact_name artifact_url)
          (fetch_and_unzip artifact_name artifact_url).
Proof.
  intros w1 w2 (He & Hh & Hb & Hf & Hd).
  unfold fetch_and_unzip, bind, print, emit, get_request_headers, requests_get,
    write_file, unzip.
  cbn [add_log environ http bucket files dirs log]. rewrite He.
  destruct (dict_get (environ w2) "GITHUB_TOKEN") as [token|];
    [|split; [reflexivity|now repeat split]].
  cbn [add_log environ http bucket files dirs log]. rewrite Hh.
  destruct (http w2 artifact_url _) as [content|];
    [|split; [reflexivity|now repeat split]].
  cbn [add_log environ http bucket files dirs log]. rewrite !dict_get_set_same.
  destruct content as [members|raw]; cbn [fst snd]; rewrite Hf, Hd, Hb, He;
    (split; [reflexivity|now repeat split]).
Qed.

Lemma related_download_and_extract_artifact
    (artifact_name artifact_url : string) (attempt1 attempt2 : Z) :
  related (download_and_extract_artifact artifact_name artifact_url attempt1)
          (download_and_extract_artifact artifact_name artifact_url attempt2).
Proof.
  unfold download_and_extract_artifact, check_run_attempt.
  apply related_bind.
  - apply related_for_in. intros [] atom. apply related_check_atom.
  - intros _. apply related_fetch_and_unzip.
Qed.

(** X11. What [download_and_extract_artifact] returns or raises, and the
    files and directories it leaves, do not depend on the requested run
    attempt: the attempt only changes what is printed. *)
Theorem X11_run_attempt_changes_the_log_only
    (artifact_name artifact_url : string) (attempt1 attempt2 : Z) (w : world) :
  let r1 := download_and_extract_artifact artifact_name artifact_url attempt1 w in
  let r2 := download_and_extract_artifact artifact_name artifact_url attempt2 w in
  fst r1 = fst r2
  /\ files (snd r1) = files (snd r2)
  /\ dirs (snd r1) = dirs (snd r2).
Proof.
  intros r1 r2. subst r1 r2.
  destruct (related_download_and_extract_artifact artifact_name artifact_url
              attempt1 attempt2 w w (same_but_log_refl w))
    as (Hr & _ & _ & _ & Hf & Hd).
  auto.
Qed.

(** X12. [fetch_and_unzip] returns normally exactly when [GITHUB_TOKEN] is
    set and the response to the request with the two headers is a zip
    archive. When the response is anything else, [BadZipFile] is raised and
    what was downloaded stays in the file of the artifact's name. *)
Theorem X12_fetch_and_unzip_outcome
    (artifact_name artifact_url : string) (w : world) :
  let r := fetch_and_unzip artifact_name artifact_url w in
  (fst r = Ok tt
   <-> exists token members,
         dict_get (environ w) "GITHUB_TOKEN" = Some token
         /\ http w artifact_url
                 [("Accept", "application/vnd.github.v3+json");
                  ("Authorization", ("token " ++ token)%string)]
            = Some (Archive members))
  /\ (forall token content,
        dict_get (environ w) "GITHUB_TOKEN" = Some token ->
        http w artifact_url
             [("Accept", "application/vnd.github.v3+json");
              ("Authorization", ("token " ++ token)%string)]
        = Some (Raw content) ->
        fst r = Raise BadZipFile
        /\ dict_get (files (snd r)) artifact_name = Some (Raw content)
        /\ dirs (snd r) = dirs w).
Proof.
  intros r. subst r.
  unfold fetch_and_unzip, bind, print, emit, get_request_headers, requests_get,
    write_file, unzip.
  cbn [add_log environ http bucket files dirs log].
  destruct (dict_get (environ w) "GITHUB_TOKEN") as [token|].
  - cbn [add_log environ http bucket files dirs log].
    match goal with
    | |- context [http w artifact_url ?h] =>
        destruct (http w artifact_url h) as [[members|raw]|] eqn:Eh
    end;
      cbn [add_log environ http bucket files dirs log fst snd];
      rewrite ?dict_get_set_same; cbn [fst snd files dirs]; split.
    + split; [|reflexivity]. intros _. now exists token, members.
    + intros t c Ht Hc. inversion Ht; subst t.
      rewrite Eh in Hc. discriminate Hc.
    + split; [discriminate|]. intros (t & m & Ht & Hm). inversion Ht; subst t.
      rewrite Eh in Hm. discriminate Hm.
    + intros t c Ht Hc. inversion Ht; subst t. rewrite Eh in Hc.
      inversion Hc; subst c. now rewrite dict_get_set_same.
    + split; [discriminate|]. intros (t & m & Ht & Hm). inversion Ht; subst t.
      rewrite Eh in Hm. discriminate Hm.
    + intros t c Ht Hc. inversion Ht; subst t. rewrite Eh in Hc. discriminate Hc.
  - split.
    + split; [discriminate|]. intros (t & m & Ht & _). discriminate Ht.
    + intros t c Ht. discriminate Ht.
Qed.

Lemma X12_fetch_and_unzip_outcome_witness :
  fst (fetch_and_unzip "test-reports-linux" "url" bad_gateway) = Raise BadZipFile
  /\ dict_get (files (snd (fetch_and_unzip "test-reports-linux" "url" bad_gateway)))
              "test-reports-linux"
     = Some (Raw "<html>502 Bad Gateway</html>")
  /\ dirs (snd (fetch_and_unzip "test-reports-linux" "url" bad_gateway))
     = dirs bad_gateway.
Proof.
  apply (proj2 (X12_fetch_and_unzip_outcome "test-reports-linux" "url" bad_gateway)
               "secret" "<html>502 Bad Gateway</html>").
  - reflexivity.
  - reflexivity.
Defined.

Lemma drop_append (a b : string) : drop (String.length a) (a ++ b) = b.
Proof. induction a as [|c a IH]; simpl; [now destruct b|exact IH]. Qed.

(** X13. When every atom of the name that starts with [runattempt] is
    [runattempt<n>] for the requested attempt [n], and so also when no atom
    starts with [runattempt], the loop prints nothing and
    [download_and_extract_artifact] is the download and the extraction. *)
Theorem X13_matching_attempt_is_silent
    (artifact_name artifact_url : string) (workflow_run_attempt : Z) (w : world) :
  (forall atom, In atom (split "-" artifact_name) ->
                startswith "runattempt" atom = true ->
                atom = ("runattempt" ++ of_int workflow_run_attempt)%string) ->
  download_and_extract_artifact artifact_name artifact_url workflow_run_attempt w
  = fetch_and_unzip artifact_name artifact_url w.
Proof.
  intros H. unfold download_and_extract_artifact, check_run_attempt, bind at 1.
  assert (Hint : forall atom, In atom (split "-" artifact_name) ->
                              startswith "runattempt" atom = true ->
                              py_int (drop (String.length "runattempt") atom)
                              = Some workflow_run_attempt).
  { intros atom Hin Hs. rewrite (H atom Hin Hs), drop_append. apply py_int_of_int. }
  rewrite for_in_check_atom.
  - assert (E : skip_events_of artifact_name workflow_run_attempt
                               (split "-" artifact_name) = []).
    { revert Hint. generalize (split "-" artifact_name). intros l Hl.
      induction l as [|atom r IH]; [reflexivity|]. cbn [skip_events_of flat_map].
      fold (skip_events_of artifact_name workflow_run_attempt r).
      rewrite IH by (intros a Ha; apply Hl; now right).
      destruct (startswith "runattempt" atom) eqn:Es; [|reflexivity].
      rewrite (Hl atom (or_introl eq_refl) Es), Z.eqb_refl. reflexivity. }
    now rewrite E, add_log_nil.
  - intros atom Hin Hs. now rewrite (Hint atom Hin Hs).
Qed.

Lemma X13_matching_attempt_is_silent_witness :
  download_and_extract_artifact "test-reports-runattempt2-linux" "url" 2 github
  = fetch_and_unzip "test-reports-runattempt2-linux" "url" github.
Proof.
  apply (X13_matching_attempt_is_silent "test-reports-runattempt2-linux" "url" 2 github).
  simpl. intros atom [<-|[<-|[<-|[<-|[]]]]]; intros H; try discriminate H.
  reflexivity.
Defined.

Lemma for_in_check_atom_raises (artifact_name : string) (workflow_run_attempt : Z)
    (atoms : list string) :
  forall w : world,
    (exists atom, In atom atoms /\ startswith "runattempt" atom = true
                  /\ py_int (drop (String.length "runattempt") atom) = None) ->
    fst (for_in atoms tt (check_atom artifact_name workflow_run_attempt) w)
    = Raise ValueError
    /\ same_but_log w (snd (for_in atoms tt (check_atom artifact_name workflow_run_attempt) w)).
Proof.
  induction atoms as [|atom r IH]; intros w (bad & Hin & Hs & Hn); [destruct Hin|].
  cbn [for_in]. unfold bind at 1 2. unfold check_atom at 1 3.
  destruct (startswith "runattempt" atom) eqn:Es.
  - destruct (py_int (drop (String.length "runattempt") atom)) as [n|] eqn:En.
    + assert (Hr : exists atom0, In atom0 r /\ startswith "runattempt" atom0 = true
                                 /\ py_int (drop (String.length "runattempt") atom0) = None).
      { destruct Hin as [<-|Hin]; [congruence|]. now exists bad. }
      unfold bind, int_or_raise, ret.
      destruct (negb (workflow_run_attempt =? n)).
      * unfold print, emit.
        match goal with
        | |- context [add_log ?evs w] =>
            destruct (IH (add_log evs w) Hr) as [H1 H2]
        end.
        split; [exact H1|exact H2].
      * unfold ret. exact (IH w Hr).
    + unfold bind, int_or_raise, raise. split; [reflexivity|apply same_but_log_refl].
  - assert (Hr : exists atom0, In atom0 r /\ startswith "runattempt" atom0 = true
                               /\ py_int (drop (String.length "runattempt") atom0) = None).
    { destruct Hin as [<-|Hin]; [congruence|]. now exists bad. }
    unfold ret. exact (IH w Hr).
Qed.

(** X14. When an atom of the name starts with [runattempt] and does not go
    on with an integer, [download_and_extract_artifact] raises [ValueError]
    and downloads nothing: the files and the directories are as before. *)
Theorem X14_malformed_token_raises
    (artifact_name artifact_url atom : string) (workflow_run_attempt : Z) (w : world) :
  In atom (split "-" artifact_name) ->
  startswith "runattempt" atom = true ->
  py_int (drop (String.length "runattempt") atom) = None ->
  let r := download_and_extract_artifact artifact_name artifact_url
                                         workflow_run_attempt w in
  fst r = Raise ValueError
  /\ files (snd r) = files w
  /\ dirs (snd r) = dirs w.
Proof.
  intros Hin Hs Hn r. subst r.
  unfold download_and_extract_artifact, check_run_attempt, bind.
  destruct (for_in_check_atom_raises artifact_name workflow_run_attempt
              (split "-" artifact_name) w) as [H1 H2];
    [now exists atom|].
  destruct (for_in _ tt _ w) as [[[]|e] w']; cbn [fst snd] in *; [discriminate H1|].
  destruct H2 as (_ & _ & _ & Hf & Hd). repeat split; congruence.
Qed.

Lemma X14_malformed_token_raises_witness :
  let r := download_and_extract_artifact "test-reports-runattempts-linux" "url" 1 github in
  fst r = Raise ValueError
  /\ files (snd r) = files github
  /\ dirs (snd r) = dirs github.
Proof.
  apply (X14_malformed_token_raises "test-reports-runattempts-linux" "url"
           "runattempts" 1 github).
  - simpl. auto.
  - reflexivity.
  - reflexivity.
Defined.

(** ** Properties of the listing of the artifacts *)

Lemma find_snoc {A} (f : A -> bool) (l : list A) (a : A) :
  find f (l ++ [a])
  = match find f l with
    | Some x => Some x
    | None => if f a then Some a else None
    end.
Proof.
  induction l as [|x r IH]; simpl; [reflexivity|]. now destruct (f x).
Qed.

Lemma select_step_get (d : dict string) (a : string * string) (k : string) :
  dict_get (if contains "test-report" (fst a)
            then dict_set d (path_str (fst a)) (snd a) else d) k
  = if is_report_for k a then Some (snd a) else dict_get d k.
Proof.
  unfold is_report_for. destruct (contains "test-report" (fst a)); [|reflexivity].
  now rewrite dict_get_set.
Qed.

Lemma select_reports_get (artifacts : list (string * string)) (k : string) :
  dict_get (select_reports artifacts) k = option_map snd (last_report k artifacts).
Proof.
  unfold select_reports, last_report.
  assert (H : forall d : dict string,
             dict_get
               (fold_left
                  (fun artifact_urls artifact =>
                     if contains "test-report" (fst artifact)
                     then dict_set artifact_urls (path_str (fst artifact)) (snd artifact)
                     else artifact_urls)
                  artifacts d) k
             = match find (is_report_for k) (rev artifacts) with
               | Some a => Some (snd a)
               | None => dict_get d k
               end).
  { induction artifacts as [|a r IH]; intros d; [reflexivity|].
    cbn [fold_left rev]. rewrite IH, find_snoc, select_step_get.
    now destruct (find (is_report_for k) (rev r)), (is_report_for k a). }
  rewrite H. now destruct (find (is_report_for k) (rev artifacts)).
Qed.

Lemma following_pages_with_token (token : string) (w : world) :
  dict_get (environ w) "GITHUB_TOKEN" = Some token ->
  forall response,
    exists more,
      following_pages response w = (Ok more, w)
      /\ page_artifacts response ++ more = all_artifacts response.
Proof.
  intros Ht. fix IH 1. intros [artifacts [response'|]].
  - destruct (IH response') as (more & E & Hall).
    exists (page_artifacts response' ++ more). split.
    + cbn [following_pages]. unfold bind, get_request_headers. rewrite Ht, E.
      reflexivity.
    + simpl. now rewrite Hall.
  - exists []. split; [reflexivity|]. simpl. apply app_nil_r.
Qed.

Lemma get_artifact_urls_with_token
    (api : string -> page) (workflow_run_id : Z) (token : string) (w : world) :
  dict_get (environ w) "GITHUB_TOKEN" = Some token ->
  get_artifact_urls api workflow_run_id w
  = (Ok (select_reports (all_artifacts (api (artifacts_url workflow_run_id)))), w).
Proof.
  intros Ht. unfold get_artifact_urls, bind.
  destruct (following_pages_with_token token w Ht (api (artifacts_url workflow_run_id)))
    as (more & E & Hall).
  rewrite E. unfold ret. now rewrite Hall.
Qed.

(** X15. With [GITHUB_TOKEN] set, [get_artifact_urls] returns, without any
    other effect, a dictionary over the artifacts of all the pages: under a
    path it has the download URL of the last artifact that has this path
    and ["test-report"] in its name, and it has no other keys. *)
Theorem X15_artifact_urls_are_the_test_reports
    (api : string -> page) (workflow_run_id : Z) (token : string) (w : world) :
  dict_get (environ w) "GITHUB_TOKEN" = Some token ->
  exists artifact_urls,
    get_artifact_urls api workflow_run_id w = (Ok artifact_urls, w)
    /\ (forall k,
          dict_get artifact_urls k
          = option_map snd
              (last_report k (all_artifacts (api (artifacts_url workflow_run_id)))))
    /\ (forall k,
          In k (keys artifact_urls) ->
          exists name url,
            In (name, url) (all_artifacts (api (artifacts_url workflow_run_id)))
            /\ contains "test-report" name = true
            /\ k = path_str name).
Proof.
  intros Ht. eexists. split; [exact (get_artifact_urls_with_token _ _ _ _ Ht)|].
  split; [intros k; apply select_reports_get|].
  intros k Hk. apply dict_get_In in Hk. rewrite select_reports_get in Hk.
  unfold last_report in Hk.
  destruct (find (is_report_for k) _) as [[name url]|] eqn:E; [|now destruct Hk].
  apply find_some in E. destruct E as [Hin Hp]. exists name, url.
  apply in_rev in Hin. unfold is_report_for in Hp. simpl in Hp.
  apply andb_true_iff in Hp. destruct Hp as [Hc Hp]. apply String.eqb_eq in Hp.
  auto.
Qed.

Lemma X15_artifact_urls_are_the_test_reports_witness :
  exists artifact_urls,
    get_artifact_urls two_pages 12 github = (Ok artifact_urls, github)
    /\ (forall k,
          dict_get artifact_urls k
          = option_map snd (last_report k (all_artifacts (two_pages (artifacts_url 12)))))
    /\ (forall k,
          In k (keys artifact_urls) ->
          exists name url,
            In (name, url) (all_artifacts (two_pages (artifacts_url 12)))
            /\ contains "test-report" name = true
            /\ k = path_str name).
Proof.
  apply (X15_artifact_urls_are_the_test_reports two_pages 12 "secret" github).
  reflexivity.
Defined.

(** In [two_pages] the two artifacts of one path give one entry, with the
    URL of the second. *)
Lemma two_pages_urls :
  get_artifact_urls two_pages 12 github
  = (Ok [("test-reports-runattempt1-linux", "https://example.org/4")], github).
Proof. reflexivity. Qed.

(** X16. Without [GITHUB_TOKEN], [get_artifact_urls] raises [KeyError]
    exactly when the first response has a [next] link: the first request
    carries no headers, the requests that follow do. *)
Theorem X16_token_is_read_on_the_second_page
    (api : string -> page) (workflow_run_id : Z) (w : world) :
  dict_get (environ w) "GITHUB_TOKEN" = None ->
  match api (artifacts_url workflow_run_id) with
  | Page artifacts None =>
      get_artifact_urls api workflow_run_id w = (Ok (select_reports artifacts), w)
  | Page _ (Some _) =>
      get_artifact_urls api workflow_run_id w = (Raise KeyError, w)
  end.
Proof.
  intros Ht. unfold get_artifact_urls, bind.
  destruct (api (artifacts_url workflow_run_id)) as [artifacts [response'|]].
  - cbn [following_pages]. unfold bind, get_request_headers. now rewrite Ht.
  - cbn [following_pages page_artifacts]. unfold ret. now rewrite app_nil_r.
Qed.

Lemma X16_token_is_read_on_the_second_page_witness :
  get_artifact_urls two_pages 12 no_token = (Raise KeyError, no_token).
Proof.
  apply (X16_token_is_read_on_the_second_page two_pages 12 no_token).
  reflexivity.
Defined.





